(** * EduRisk analysis: the risk bucketer and the learned risk predictor

    A shallow embedding of [utils.py] (the deterministic bucketer
    [get_risk_level] and the derived columns of [generate_sample_data]) and
    of [model.py] (the [StudentPredictor] class: [train_model],
    [predict_risk], [save_model], [load_model]).

    Numbers.  Python's finite ints and floats are rationals and their
    comparisons are exact, so marks, totals, importances and probabilities
    are values of [Q]; arithmetic is the exact one ([+], [/], [*] of [Q]),
    which is what the float operations of the source approximate.
    Statements about numbers are up to [==] of [Q]. *)

From Stdlib Require Import QArith Qround Lqa.
From stdpp Require Import gmap strings list fin_maps sorting.
From Stdlib Require Import Ascii Decimal DecimalNat DecimalString.

Local Open Scope string_scope.

(** ** utils.py *)

Module Utils.

(** [a >= b] on Python numbers. *)
Definition ge (a b : Q) : bool := Qle_bool b a.

(** utils.py, [get_risk_level]: an if/elif chain, first match wins. *)
Definition get_risk_level (total_marks : Q) : string :=
  if ge total_marks 45 then "Low"
  else if ge total_marks 35 then "Medium"
  else if ge total_marks 25 then "High"
  else "Failure".

(** The four labels of the vocabulary, ranked Failure < High < Medium < Low.
    Any other string has no rank. *)
Definition rank (label : string) : option nat :=
  if decide (label = "Failure") then Some 0%nat
  else if decide (label = "High") then Some 1%nat
  else if decide (label = "Medium") then Some 2%nat
  else if decide (label = "Low") then Some 3%nat
  else None.









(** The thresholds of the bucketer, as a relation between a total and its
    label. *)
Inductive bucket_of (t : Q) : string -> Prop :=
| bucket_low : (45 <= t)%Q -> bucket_of t "Low"
| bucket_medium : (35 <= t)%Q -> (t < 45)%Q -> bucket_of t "Medium"
| bucket_high : (25 <= t)%Q -> (t < 35)%Q -> bucket_of t "High"
| bucket_failure : (t < 25)%Q -> bucket_of t "Failure".



End Utils.

(** ** model.py *)

Module Model.

(** *** Python values and outcomes *)

(** A cell of a pandas frame, and a value of a feature mapping: missing
    ([NaN] or [None]), a number, or a string. *)
Inductive cell :=
| NA
| Num (q : Q)
| Str (s : string).

(** [Series.notna], elementwise. *)
Definition notna (c : cell) : bool :=
  match c with NA => false | _ => true end.

(** A raised exception: its class name and [str(e)]. *)
Record exn := Exn { exn_type : string; str : string }.

(** The outcome of an expression that may raise. *)
Inductive result (A : Type) :=
| Ok (a : A)
| Raise (e : exn).
Arguments Ok {A} a.
Arguments Raise {A} e.

Definition KeyError (key : string) : exn := Exn "KeyError" ("'" ++ key ++ "'").
Definition TypeError (msg : string) : exn := Exn "TypeError" msg.
Definition ValueError (msg : string) : exn := Exn "ValueError" msg.
Definition IndexError (msg : string) : exn := Exn "IndexError" msg.

Global Instance result_ret : MRet result := fun A a => Ok a.

Global Instance result_bind : MBind result :=
  fun A B k r =>
    match r with
    | Ok a => k a
    | Raise e => Raise e
    end.

(** [a[0]] on a sequence. *)
Definition item0 {A} (a : list A) : result A :=
  match a with
  | x :: _ => Ok x
  | [] => Raise (IndexError "index 0 is out of bounds for axis 0 with size 0")
  end.

(** [d[key]] on a dict. *)
Definition getitem {A} (d : gmap string A) (key : string) : result A :=
  match d !! key with
  | Some v => Ok v
  | None => Raise (KeyError key)
  end.

(** Python's [max] of a sequence of numbers: the first greatest item;
    [ValueError] on an empty sequence. *)
Definition max2 (a b : Q) : Q := if Qlt_le_dec a b then b else a.

Definition py_max (l : list Q) : result Q :=
  match l with
  | [] => Raise (ValueError "max() arg is an empty sequence")
  | x :: xs => Ok (foldl max2 x xs)
  end.

(** *** Frames *)

(** A pandas DataFrame, row by row: the column labels and, for each index
    entry, the cells of that row in column order.  A label is resolved to
    the first column that carries it. *)
Record DataFrame := {
  columns : list string;
  rows : list (list cell)
}.

(** [len(data)]. *)
Definition len (data : DataFrame) : nat := length (rows data).

(** [data.empty]: some axis has length 0. *)
Definition empty (data : DataFrame) : bool :=
  match columns data, rows data with
  | [], _ | _, [] => true
  | _, _ => false
  end.

(** [col in data.columns]. *)
Definition has_column (data : DataFrame) (col : string) : bool :=
  bool_decide (col ∈ columns data).

Fixpoint position (col : string) (cols : list string) : option nat :=
  match cols with
  | [] => None
  | c :: cs => if decide (c = col) then Some 0%nat else S <$> position col cs
  end.

(** The cell of a row under a column label. *)
Definition cell_at (data : DataFrame) (row : list cell) (col : string) : cell :=
  match position col (columns data) with
  | Some i => default NA (row !! i)
  | None => NA
  end.

(** [data[cols]], as the list of its rows. *)
Definition select (data : DataFrame) (cols : list string) : list (list cell) :=
  map (fun row => map (cell_at data row) cols) (rows data).

(** [data[col]], as the list of its values. *)
Definition column (data : DataFrame) (col : string) : list cell :=
  map (fun row => cell_at data row col) (rows data).

(** [s[mask]]: boolean indexing. *)
Fixpoint boolean_index {A} (s : list A) (mask : list bool) : list A :=
  match s, mask with
  | x :: s', b :: mask' =>
      if b then x :: boolean_index s' mask' else boolean_index s' mask'
  | _, _ => []
  end.

(** The feature-importance frame: its rows, each a ['feature'] and an
    ['importance']. *)
Definition ImportanceFrame := list (string * Q).

(** [pd.DataFrame({'feature': features, 'importance': importances})]:
    the two columns must have the same length. *)
Definition importance_frame (features : list string) (importances : list Q)
  : result ImportanceFrame :=
  if decide (length features = length importances)
  then Ok (zip features importances)
  else Raise (ValueError "All arrays must be of the same length").

(** [.sort_values('importance', ascending=False)]: rows by decreasing
    importance; rows of equal importance keep their order. *)
Fixpoint insert_desc (r : string * Q) (f : ImportanceFrame) : ImportanceFrame :=
  match f with
  | [] => [r]
  | r' :: f' =>
      if Qlt_le_dec (snd r) (snd r') then r' :: insert_desc r f'
      else r :: r' :: f'
  end.

Definition sort_values_desc (f : ImportanceFrame) : ImportanceFrame :=
  foldr insert_desc [] f.

(** *** scikit-learn, as the predictor uses it

    The library is not part of the repository: its estimators are the
    operations of this interface, each returning its value or the exception
    it raises.  [fit] works in place, so it returns the estimator as it
    leaves it, also when it raises. *)
Class Sklearn := {
  (** [RandomForestClassifier] objects, fitted or not *)
  Forest : Type;
  (** fitted [LabelEncoder] objects *)
  Encoder : Type;
  (** [RandomForestClassifier(n_estimators=100, random_state=42, max_depth=10)] *)
  new_forest : Forest;
  (** [le = LabelEncoder(); le.fit_transform(y)]: the fitted encoder and the codes *)
  fit_transform : list cell -> result (Encoder * list nat);
  (** [le.inverse_transform(codes)] *)
  inverse_transform : Encoder -> list nat -> result (list cell);
  (** [train_test_split(X, y, test_size=0.2, random_state=42, stratify=y)] *)
  train_test_split :
    list (list cell) -> list nat ->
    result (list (list cell) * list (list cell) * list nat * list nat);
  (** [model.fit(X, y)] *)
  fit : Forest -> list (list cell) -> list nat -> Forest * option exn;
  (** [model.predict(X)] *)
  predict : Forest -> list (list cell) -> result (list nat);
  (** [model.predict_proba(X)] *)
  predict_proba : Forest -> list (list cell) -> result (list (list Q));
  (** [model.feature_importances_] *)
  feature_importances_ : Forest -> result (list Q);
  (** [accuracy_score(y_true, y_pred)] *)
  accuracy_score : list nat -> list nat -> result Q
}.

(** *** Streamlit reports *)

Inductive message :=
| NotEnoughData
    (* "Not enough data to train the model. Need at least 10 records." *)
| NeedThreeColumns (found : list string)
    (* f"Need at least 3 academic mark columns. Found: {available_features}" *)
| RiskLevelNotFound
    (* "Risk level column not found in data" *)
| NotEnoughComplete
    (* "Not enough complete records after cleaning missing values" *)
| TrainedSuccessfully (accuracy : Q)
    (* f"Model trained successfully! Accuracy: {accuracy:.2f}" *)
| TopFeatures (top : list string)
    (* f"Feature importance: {', '.join(...head(3).tolist())}" *)
| ErrorTraining (e : exn)
    (* f"Error training model: {str(e)}" *)
| ErrorSaving (e : exn)
    (* f"Error saving model: {e}" *)
| ErrorLoading (e : exn).
    (* f"Error loading model: {e}" *)

Inductive report :=
| st_warning (m : message)
| st_error (m : message)
| st_success (m : message)
| st_info (m : message).

(** *** Method bodies

    A method body runs on a mutable state [S] (the predictor's fields, or
    the storage), emits Streamlit reports and ends with a value or with a
    raised exception.  The state it returns is the one it has reached, also
    when it raises. *)
Definition Method (S A : Type) : Type := S -> S * list report * result A.

Global Instance method_ret {S} : MRet (Method S) := fun A a s => (s, [], Ok a).

Global Instance method_bind {S} : MBind (Method S) :=
  fun A B k c s =>
    match c s with
    | (s1, log1, Ok a) =>
        let '(s2, log2, r) := k a s1 in (s2, (log1 ++ log2)%list, r)
    | (s1, log1, Raise e) => (s1, log1, Raise e)
    end.

(** An expression of the body that may raise and touches no state. *)
Definition eval {S A} (r : result A) : Method S A := fun s => (s, [], r).

(** [st.warning(...)], [st.error(...)], [st.success(...)], [st.info(...)]. *)
Definition st {S} (r : report) : Method S unit := fun s => (s, [r], Ok tt).

Definition get {S} : Method S S := fun s => (s, [], Ok s).

Definition modify {S} (f : S -> S) : Method S unit := fun s => (f s, [], Ok tt).

(** [try: body  except Exception as e: handler(e)]. *)
Definition try_except {S A} (body : Method S A) (handler : exn -> Method S A)
  : Method S A :=
  fun s =>
    match body s with
    | (s1, log1, Ok a) => (s1, log1, Ok a)
    | (s1, log1, Raise e) =>
        let '(s2, log2, r) := handler e s1 in (s2, (log1 ++ log2)%list, r)
    end.

Section Predictor.
Context `{sk : Sklearn}.

(** *** class StudentPredictor *)

Record StudentPredictor := {
  model : Forest;
  is_trained : bool;
  label_encoders : gmap string Encoder;
  feature_importance : option ImportanceFrame
}.

(** [__init__]. *)
Definition new_predictor : StudentPredictor :=
  {| model := new_forest;
     is_trained := false;
     label_encoders := ∅;
     feature_importance := None |}.

(** Assignments to the fields of [self]. *)
Definition set_model (m : Forest) (self : StudentPredictor) : StudentPredictor :=
  {| model := m; is_trained := is_trained self;
     label_encoders := label_encoders self;
     feature_importance := feature_importance self |}.

Definition set_is_trained (b : bool) (self : StudentPredictor) : StudentPredictor :=
  {| model := model self; is_trained := b;
     label_encoders := label_encoders self;
     feature_importance := feature_importance self |}.

Definition set_label_encoders (d : gmap string Encoder) (self : StudentPredictor)
  : StudentPredictor :=
  {| model := model self; is_trained := is_trained self;
     label_encoders := d;
     feature_importance := feature_importance self |}.

Definition set_feature_importance (f : option ImportanceFrame)
    (self : StudentPredictor) : StudentPredictor :=
  {| model := model self; is_trained := is_trained self;
     label_encoders := label_encoders self;
     feature_importance := f |}.

(** [self.model.fit(X, y)]: the estimator is updated in place, whether the
    call returns or raises. *)
Definition fit_model (X : list (list cell)) (y : list nat)
  : Method StudentPredictor unit :=
  fun self =>
    let '(m, raised) := fit (model self) X y in
    (set_model m self, [],
     match raised with
     | None => Ok tt
     | Some e => Raise e
     end).

(** *** train_model *)

Definition feature_columns : list string :=
  ["cat1_marks"; "cat2_marks"; "assignment_marks"; "attendance_marks";
   "quiz_marks"].

(** [[col for col in feature_columns if col in data.columns]]. *)
Definition available_features (data : DataFrame) : list string :=
  List.filter (has_column data) feature_columns.

(** [X.notna().all(axis=1) & y.notna()]. *)
Definition complete_mask (X : list (list cell)) (y : list cell) : list bool :=
  zip_with andb (map (forallb notna) X) (map notna y).

Definition train_body (data : DataFrame) : Method StudentPredictor bool :=
  (if empty data || (len data <? 10)%nat then
     st (st_warning NotEnoughData) ;;
     mret false
   else
     let available_features := available_features data in
     if (length available_features <? 3)%nat then
       st (st_error (NeedThreeColumns available_features)) ;;
       mret false
     else if negb (has_column data "risk_level") then
       st (st_error RiskLevelNotFound) ;;
       mret false
     else
       let X := select data available_features in
       let y := column data "risk_level" in
       let mask := complete_mask X y in
       let X := boolean_index X mask in
       let y := boolean_index y mask in
       if (length X <? 10)%nat then
         st (st_warning NotEnoughComplete) ;;
         mret false
       else
         '(le, y_encoded) ← eval (fit_transform y);
         modify (fun self =>
           set_label_encoders (<["risk_level" := le]> (label_encoders self)) self) ;;
         '(X_train, X_test, y_train, y_test) ← eval (train_test_split X y_encoded);
         fit_model X_train y_train ;;
         self ← get;
         y_pred ← eval (predict (model self) X_test);
         accuracy ← eval (accuracy_score y_test y_pred);
         importances ← eval (feature_importances_ (model self));
         frame ← eval (importance_frame available_features importances);
         modify (set_feature_importance (Some (sort_values_desc frame))) ;;
         modify (set_is_trained true) ;;
         st (st_success (TrainedSuccessfully accuracy)) ;;
         self ← get;
         top ← eval (match feature_importance self with
                      | Some f => Ok (take 3 (map fst f))
                      | None => Raise (TypeError "'NoneType' object is not subscriptable")
                      end);
         st (st_info (TopFeatures top)) ;;
         mret true).

Definition train_model (data : DataFrame) : Method StudentPredictor bool :=
  try_except (train_body data)
    (fun e => st (st_error (ErrorTraining e)) ;; mret false).

(** *** predict_risk *)

(** [[features_dict.get(col, 0) for col in feature_columns]]. *)
Definition features_array (features_dict : gmap string cell)
    (feature_columns : list string) : list cell :=
  map (fun col => default (Num 0) (features_dict !! col)) feature_columns.

(** The body of the [try] block. *)
Definition predict_body (self : StudentPredictor) (features_dict : gmap string cell)
  : result (cell * Q) :=
  (frame ← match feature_importance self with
            | Some f => Ok f
            | None => Raise (TypeError "'NoneType' object is not subscriptable")
            end;
   let feature_columns := map fst frame in
   let features_array := features_array features_dict feature_columns in
   predictions ← predict (model self) [features_array];
   prediction_encoded ← item0 predictions;
   probabilities ← predict_proba (model self) [features_array];
   prediction_proba ← item0 probabilities;
   le ← getitem (label_encoders self) "risk_level";
   decoded ← inverse_transform le [prediction_encoded];
   risk_level ← item0 decoded;
   greatest ← py_max prediction_proba;
   let confidence := (greatest * 100)%Q in
   Ok (risk_level, confidence)).

Definition predict_risk (self : StudentPredictor) (features_dict : gmap string cell)
  : result (cell * Q) :=
  if negb (is_trained self) then Ok (Str "Model not trained", 0%Q)
  else
    match predict_body self features_dict with
    | Ok r => Ok r
    | Raise e => Ok (Str ("Prediction error: " ++ str e), 0%Q)
    end.

(** *** Storage and joblib *)

(** What [save_model] dumps and [load_model] reads back: a dict, of which
    the four keys the code uses are kept, each absent or holding a value of
    the kind [save_model] stores under it. *)
Record Blob := {
  key_model : option Forest;
  key_label_encoders : option (gmap string Encoder);
  key_feature_importance : option (option ImportanceFrame);
  key_is_trained : option bool
}.

(** What a path names: a directory, a file that [joblib.load] cannot turn
    into a dict (not a pickle, truncated, unreadable), or a pickled dict.
    joblib is taken to be lossless: a file is the value dumped into it, and
    loading it returns that value. *)
Inductive file :=
| Directory
| Garbage
| Pickled (d : Blob).

(** The storage: what each existing path names, and the paths that cannot
    be created or written (no permission, missing parent, read-only
    medium). *)
Record Storage := {
  files : gmap string file;
  denied : gset string
}.

(** [os.makedirs(path, exist_ok=True)]. *)
Definition makedirs (path : string) : Method Storage unit :=
  fun fs =>
    match files fs !! path with
    | Some Directory => (fs, [], Ok tt)
    | Some _ => (fs, [], Raise (Exn "FileExistsError" path))
    | None =>
        if decide (path ∈ denied fs) then
          (fs, [], Raise (Exn "PermissionError" path))
        else
          ({| files := <[path := Directory]> (files fs); denied := denied fs |},
           [], Ok tt)
    end.

(** [joblib.dump(value, filename)]. *)
Definition joblib_dump (value : Blob) (filename : string) : Method Storage unit :=
  fun fs =>
    if decide (filename ∈ denied fs) then
      (fs, [], Raise (Exn "PermissionError" filename))
    else
      match files fs !! filename with
      | Some Directory => (fs, [], Raise (Exn "IsADirectoryError" filename))
      | _ =>
          ({| files := <[filename := Pickled value]> (files fs);
              denied := denied fs |},
           [], Ok tt)
      end.

(** [os.path.exists(filename)]. *)
Definition path_exists (fs : Storage) (filename : string) : bool :=
  bool_decide (is_Some (files fs !! filename)).

(** [joblib.load(filename)]. *)
Definition joblib_load (fs : Storage) (filename : string) : result Blob :=
  match files fs !! filename with
  | Some (Pickled d) => Ok d
  | Some Directory => Raise (Exn "IsADirectoryError" filename)
  | Some Garbage => Raise (Exn "UnpicklingError" filename)
  | None => Raise (Exn "FileNotFoundError" filename)
  end.

(** [model_data[key]]. *)
Definition blob_item {A} (key : string) (v : option A) : result A :=
  match v with
  | Some a => Ok a
  | None => Raise (KeyError key)
  end.

(** *** save_model *)

(** The dict literal that [save_model] dumps. *)
Definition state_dict (self : StudentPredictor) : Blob :=
  {| key_model := Some (model self);
     key_label_encoders := Some (label_encoders self);
     key_feature_importance := Some (feature_importance self);
     key_is_trained := Some (is_trained self) |}.

Definition save_model (self : StudentPredictor) (filename : string)
  : Method Storage bool :=
  try_except
    (makedirs "model" ;;
     joblib_dump (state_dict self) filename ;;
     mret true)
    (fun e => st (st_error (ErrorSaving e)) ;; mret false).

(** *** load_model *)

Definition load_model (fs : Storage) (filename : string)
  : Method StudentPredictor bool :=
  try_except
    (if path_exists fs filename then
       model_data ← eval (joblib_load fs filename);
       m ← eval (blob_item "model" (key_model model_data));
       modify (set_model m) ;;
       d ← eval (blob_item "label_encoders" (key_label_encoders model_data));
       modify (set_label_encoders d) ;;
       f ← eval (blob_item "feature_importance" (key_feature_importance model_data));
       modify (set_feature_importance f) ;;
       b ← eval (blob_item "is_trained" (key_is_trained model_data));
       modify (set_is_trained b) ;;
       mret true
     else
       mret false)
    (fun e => st (st_error (ErrorLoading e)) ;; mret false).

(** The default [filename] of [save_model] and [load_model]. *)
Definition default_filename : string := "model/student_predictor.joblib".

(** *** Notions used in the statements *)

(** A row is usable when none of the selected marks and not the label is
    missing. *)
Definition usable (data : DataFrame) (row : list cell) : bool :=
  forallb (fun col => notna (cell_at data row col)) (available_features data)
  && notna (cell_at data row "risk_level").

Definition usable_rows (data : DataFrame) : list (list cell) :=
  List.filter (usable data) (rows data).

(** The early exits of [train_model]. *)
Definition early_exit (data : DataFrame) : Prop :=
  (len data < 10)%nat
  \/ (length (available_features data) < 3)%nat
  \/ ("risk_level" ∉ columns data)
  \/ (length (usable_rows data) < 10)%nat.

(** The label column of the usable rows: what [train_model] encodes. *)
Definition usable_labels (data : DataFrame) : list cell :=
  map (fun row => cell_at data row "risk_level") (usable_rows data).

(** Whether a frame gets past the four checks of [train_model]. *)
Definition passes_checks (data : DataFrame) : bool :=
  negb (empty data || (len data <? 10)%nat)
  && negb (length (available_features data) <? 3)%nat
  && has_column data "risk_level"
  && negb (length (usable_rows data) <? 10)%nat.

(** What has happened when the body ends, for a frame that passes the
    checks: the label encoding raised and nothing was touched; or the
    encoder was stored and a later step raised; or every step returned. *)
Inductive late_outcome (data : DataFrame) (self : StudentPredictor)
  : StudentPredictor * list report * result bool -> Prop :=
| encoding_raised e :
    fit_transform (usable_labels data) = Raise e ->
    late_outcome data self (self, [], Raise e)
| training_raised le codes self' e :
    fit_transform (usable_labels data) = Ok (le, codes) ->
    is_trained self' = is_trained self ->
    feature_importance self' = feature_importance self ->
    label_encoders self' = <["risk_level" := le]> (label_encoders self) ->
    late_outcome data self (self', [], Raise e)
| trained le codes self' accuracy importances :
    fit_transform (usable_labels data) = Ok (le, codes) ->
    is_trained self' = true ->
    feature_importances_ (model self') = Ok importances ->
    length importances = length (available_features data) ->
    feature_importance self' =
      Some (sort_values_desc (zip (available_features data) importances)) ->
    label_encoders self' = <["risk_level" := le]> (label_encoders self) ->
    late_outcome data self
      (self',
       [st_success (TrainedSuccessfully accuracy);
        st_info (TopFeatures (take 3 (map fst
          (sort_values_desc (zip (available_features data) importances)))))],
       Ok true).

(** A predictor that no call has trained or restored: a new one, or one on
    which every [train_model] and [load_model] so far has returned False. *)
Inductive never_trained : StudentPredictor -> Prop :=
| never_new : never_trained new_predictor
| never_failed_train data self self' log :
    never_trained self ->
    train_model data self = (self', log, Ok false) ->
    never_trained self'
| never_failed_load fs filename self self' log :
    never_trained self ->
    load_model fs filename self = (self', log, Ok false) ->
    never_trained self'.

(** Rows of class probabilities. *)
Definition probabilities (P : list (list Q)) : Prop :=
  Forall (Forall (fun p => 0 <= p <= 1)%Q) P.

(** Rows by decreasing importance. *)
Definition by_importance (a b : string * Q) : Prop := (snd b <= snd a)%Q.

(** [save_model] can write [filename]: ["model"] is a directory or can be
    made one, and [filename] may be written and is not a directory. *)
Definition can_save (fs : Storage) (filename : string) : Prop :=
  (files fs !! "model" = Some Directory
   \/ ((files fs !! "model" = None) /\ ("model" ∉ denied fs)))
  /\ (filename ∉ denied fs)
  /\ (filename ≠ "model")
  /\ (files fs !! filename ≠ Some Directory).

End Predictor.

End Model.

(** ** A concrete estimator

    A small implementation of [Model.Sklearn], for running the predictor on
    concrete frames: its forest votes with the class frequencies of the
    training partition.  It raises where scikit-learn documents that it
    raises: the label encoder on labels of mixed types and on unseen codes,
    the stratified split on a class with a single member or on partitions
    smaller than the number of classes, the forest on non-numeric cells,
    before it is fitted and on rows of the wrong width.  The split keeps the
    row order (scikit-learn shuffles with the fixed seed). *)

Module Baseline.
Import Model.

(** *** LabelEncoder: [classes_] is the sorted list of distinct labels *)

Fixpoint strings_of (y : list cell) : option (list string) :=
  match y with
  | [] => Some []
  | Str s :: y' => (s ::.) <$> strings_of y'
  | _ :: _ => None
  end.

Fixpoint numbers_of (y : list cell) : option (list Q) :=
  match y with
  | [] => Some []
  | Num q :: y' => (q ::.) <$> numbers_of y'
  | _ :: _ => None
  end.

Fixpoint insert_unique {A} (eqb leb : A -> A -> bool) (x : A) (l : list A) : list A :=
  match l with
  | [] => [x]
  | x' :: l' =>
      if eqb x x' then l
      else if leb x x' then x :: l
      else x' :: insert_unique eqb leb x l'
  end.

Definition unique {A} (eqb leb : A -> A -> bool) (l : list A) : list A :=
  foldr (insert_unique eqb leb) [] l.

Definition classes_of (y : list cell) : result (list cell) :=
  match strings_of y, numbers_of y with
  | Some ss, _ => Ok (map Str (unique String.eqb String.leb ss))
  | None, Some qs => Ok (map Num (unique Qeq_bool Qle_bool qs))
  | None, None =>
      Raise (TypeError "'<' not supported between instances of 'str' and 'float'")
  end.

Definition cell_eqb (a b : cell) : bool :=
  match a, b with
  | NA, NA => true
  | Num p, Num q => Qeq_bool p q
  | Str s, Str t => String.eqb s t
  | _, _ => false
  end.

Fixpoint code_of (classes : list cell) (c : cell) : nat :=
  match classes with
  | [] => 0
  | c' :: classes' => if cell_eqb c c' then 0 else S (code_of classes' c)
  end.

Definition fit_transform (y : list cell) : result (list cell * list nat) :=
  classes ← classes_of y;
  Ok (classes, map (code_of classes) y).

Fixpoint inverse_transform (classes : list cell) (codes : list nat)
  : result (list cell) :=
  match codes with
  | [] => Ok []
  | i :: codes' =>
      match classes !! i with
      | Some c => rest ← inverse_transform classes codes'; Ok (c :: rest)
      | None => Raise (ValueError "y contains previously unseen labels")
      end
  end.

(** *** The stratified split *)

(** [np.bincount(y)]: how many rows carry each code. *)
Definition bincount (y : list nat) : list nat :=
  map (fun k => length (List.filter (Nat.eqb k) y)) (seq 0 (S (foldr Nat.max 0 y))).

Definition train_test_split (X : list (list cell)) (y : list nat)
  : result (list (list cell) * list (list cell) * list nat * list nat) :=
  let n_samples := length X in
  let n_test := ((n_samples + 4) / 5)%nat in
  let n_train := (n_samples - n_test)%nat in
  let class_counts := bincount y in
  let n_classes := length class_counts in
  if negb (length y =? n_samples)%nat then
    Raise (ValueError "Found input variables with inconsistent numbers of samples")
  else if (n_train =? 0)%nat then
    Raise (ValueError "the resulting train set will be empty")
  else if (foldr Nat.min n_samples class_counts <? 2)%nat then
    Raise (ValueError "The least populated class in y has only 1 member, which is too few.")
  else if (n_train <? n_classes)%nat then
    Raise (ValueError "The train_size should be greater or equal to the number of classes")
  else if (n_test <? n_classes)%nat then
    Raise (ValueError "The test_size should be greater or equal to the number of classes")
  else
    Ok (take n_train X, drop n_train X, take n_train y, drop n_train y).

(** *** The forest: unfitted, or the width of its rows and the votes *)

Definition Forest : Type := option (nat * list nat).

Definition numeric (row : list cell) : bool :=
  forallb (fun c => match c with Num _ => true | _ => false end) row.

Definition fit (m : Forest) (X : list (list cell)) (y : list nat)
  : Forest * option exn :=
  match X with
  | [] => (m, Some (ValueError "Found array with 0 sample(s)"))
  | row :: _ =>
      if negb (forallb numeric X) then
        (m, Some (ValueError "could not convert string to float"))
      else if negb (length y =? length X)%nat then
        (m, Some (ValueError "Found input variables with inconsistent numbers of samples"))
      else (Some (length row, bincount y), None)
  end.

Definition checked {A} (m : Forest) (X : list (list cell))
    (k : nat -> list nat -> A) : result A :=
  match m with
  | None => Raise (Exn "NotFittedError" "This RandomForestClassifier instance is not fitted yet.")
  | Some (width, votes) =>
      if forallb (fun row => numeric row && (length row =? width)%nat) X
      then Ok (k width votes)
      else Raise (ValueError "X has a different number of features than the fitted forest, or is not numeric")
  end.

(** The first class with the most votes. *)
Fixpoint argmax (votes : list nat) : nat :=
  match votes with
  | [] => 0
  | v :: votes' =>
      if forallb (fun w => w <=? v)%nat votes' then 0 else S (argmax votes')
  end.

Definition frequencies (votes : list nat) : list Q :=
  let total := foldr Nat.add 0%nat votes in
  map (fun v => Z.of_nat v # Pos.of_nat total) votes.

Definition predict (m : Forest) (X : list (list cell)) : result (list nat) :=
  checked m X (fun _ votes => map (fun _ => argmax votes) X).

Definition predict_proba (m : Forest) (X : list (list cell)) : result (list (list Q)) :=
  checked m X (fun _ votes => map (fun _ => frequencies votes) X).

Definition feature_importances_ (m : Forest) : result (list Q) :=
  checked m [] (fun width _ => replicate width (1 # Pos.of_nat width)).

Definition accuracy_score (y_true y_pred : list nat) : result Q :=
  if negb (length y_true =? length y_pred)%nat then
    Raise (ValueError "Found input variables with inconsistent numbers of samples")
  else
    Ok (Z.of_nat (length (List.filter (fun p => fst p =? snd p)%nat (zip y_true y_pred)))
        # Pos.of_nat (length y_true)).

Definition sklearn : Sklearn :=
  {| Model.Forest := Forest;
     Model.Encoder := list cell;
     Model.new_forest := None;
     Model.fit_transform := fit_transform;
     Model.inverse_transform := inverse_transform;
     Model.train_test_split := train_test_split;
     Model.fit := fit;
     Model.predict := predict;
     Model.predict_proba := predict_proba;
     Model.feature_importances_ := feature_importances_;
     Model.accuracy_score := accuracy_score |}.

(** *** Frames to run it on *)

(** A row of the five marks and a label. *)
Definition row (c1 c2 a t q : Q) (label : string) : list cell :=
  [Num c1; Num c2; Num a; Num t; Num q; Str label].

Definition six_columns : list string :=
  ["cat1_marks"; "cat2_marks"; "assignment_marks"; "attendance_marks";
   "quiz_marks"; "risk_level"].

(** Twelve rows: eight Low, four High. *)
Definition twelve_rows : DataFrame :=
  {| columns := six_columns;
     rows := replicate 8 (row 9 9 14 5 9 "Low")
             ++ replicate 4 (row 6 5 10 3 6 "High") |}.

(** Ten rows: nine Low and a single High. *)
Definition lone_high : DataFrame :=
  {| columns := six_columns;
     rows := replicate 9 (row 9 9 14 5 9 "Low") ++ [row 6 5 10 3 6 "High"] |}.

(** Ten rows: nine Failure and a single Medium. *)
Definition lone_medium : DataFrame :=
  {| columns := six_columns;
     rows := replicate 9 (row 3 3 5 2 3 "Failure") ++ [row 8 8 12 4 7 "Medium"] |}.

(** Nine rows. *)
Definition nine_rows : DataFrame :=
  {| columns := six_columns;
     rows := replicate 9 (row 9 9 14 5 9 "Low") |}.

(** The predictor after [train_model] on the twelve rows. *)
Definition trained : @StudentPredictor sklearn :=
  fst (fst (train_model twelve_rows new_predictor)).

(** The same predictor after a later [train_model] on the frame with a
    single Medium row. *)
Definition after_failed_retraining : @StudentPredictor sklearn :=
  fst (fst (train_model lone_medium trained)).

(** A feature mapping with a missing mark and an unknown key. *)
Definition some_marks : gmap string cell :=
  {[ "cat1_marks" := Num 7; "quiz_marks" := Num 8; "shoe_size" := Num 42 ]}.

Definition empty_storage : @Storage sklearn := {| files := ∅; denied := ∅ |}.

(** The storage after [save_model] of the trained predictor. *)
Definition saved_storage : @Storage sklearn :=
  fst (fst (save_model trained default_filename empty_storage)).

(** A storage whose model file holds a dict with a fitted forest under
    ['model'] and no other key. *)
Definition fitted_forest : @Model.Forest sklearn := Some (5%nat, [1%nat; 8%nat]).

Definition model_only : @Blob sklearn :=
  {| key_model := Some fitted_forest;
     key_label_encoders := None;
     key_feature_importance := None;
     key_is_trained := None |}.

Definition partial_storage : @Storage sklearn :=
  {| files := {[ default_filename := Pickled model_only ]}; denied := ∅ |}.

End Baseline.

(** ** pages/Analytics.py: the machine-learning tab *)

Module Analytics.
Import Utils Model.


(** What the tab shows besides the reports of the predictor. *)
Inductive notice :=
| from_predictor (r : report)
| model_loaded
    (* st.success("Model loaded successfully!") *)
| no_saved_model
    (* st.warning("No saved model found. Please train a model first.") *)
| train_first
    (* st.warning("Please train the ML model first to enable predictions.") *)
| prediction_differs.
    (* st.warning("ML prediction differs from traditional method. ...") *)


Section Tab.
Context `{sk : Sklearn}.

(** The "Train ML Model" button:
    [success = predictor.train_model(data)] and, [if success],
    [predictor.save_model()].  The result of [save_model] is dropped. *)
Definition train_button (data : DataFrame) (predictor : StudentPredictor)
    (fs : Storage)
  : StudentPredictor * Storage * list notice * result unit :=
  match train_model data predictor with
  | (predictor', log, Ok true) =>
      match save_model predictor' default_filename fs with
      | (fs', log', Ok _) =>
          (predictor', fs', map from_predictor (log ++ log')%list, Ok tt)
      | (fs', log', Raise e) =>
          (predictor', fs', map from_predictor (log ++ log')%list, Raise e)
      end
  | (predictor', log, Ok false) =>
      (predictor', fs, map from_predictor log, Ok tt)
  | (predictor', log, Raise e) =>
      (predictor', fs, map from_predictor log, Raise e)
  end.

(** The "Load Saved Model" button. *)
Definition load_button (predictor : StudentPredictor) (fs : Storage)
  : StudentPredictor * list notice * result unit :=
  match load_model fs default_filename predictor with
  | (predictor', log, Ok true) =>
      (predictor', (map from_predictor log ++ [model_loaded])%list, Ok tt)
  | (predictor', log, Ok false) =>
      (predictor', (map from_predictor log ++ [no_saved_model])%list, Ok tt)
  | (predictor', log, Raise e) => (predictor', map from_predictor log, Raise e)
  end.

(** The mapping built from the five number inputs. *)
Definition features (cat1 cat2 assignment attendance quiz : Q)
  : gmap string cell :=
  <["cat1_marks" := Num cat1]>
  (<["cat2_marks" := Num cat2]>
  (<["assignment_marks" := Num assignment]>
  (<["attendance_marks" := Num attendance]>
  (<["quiz_marks" := Num quiz]> ∅)))).



End Tab.

End Analytics.

(** ** pandas columns, as the pages use them *)

Module Frames.
Import Utils Model.

(** The outcomes of a list of expressions: the values, or the first
    exception. *)
Fixpoint collect {A} (l : list (result A)) : result (list A) :=
  match l with
  | [] => Ok []
  | r :: l' => x ← r; xs ← collect l'; Ok (x :: xs)
  end.

(** [a + b] on two cells.  Numbers add, a missing number gives a missing
    number, strings concatenate (next to a missing value pandas leaves a
    missing value), a number and a string raise. *)
Definition add (a b : cell) : result cell :=
  match a, b with
  | Num p, Num q => Ok (Num (p + q))
  | Str s, Str t => Ok (Str (s ++ t))
  | NA, _ | _, NA => Ok NA
  | Num _, Str _ | Str _, Num _ =>
      Raise (TypeError "unsupported operand type(s) for +")
  end.

(** [a / d] for a number [d]. *)
Definition truediv (d : Q) (a : cell) : result cell :=
  match a with
  | Num q => Ok (Num (q / d))
  | NA => Ok NA
  | Str _ => Raise (TypeError "unsupported operand type(s) for /")
  end.

(** [a * 100]: a string is repeated. *)
Definition times100 (a : cell) : result cell :=
  match a with
  | Num q => Ok (Num (q * 100))
  | NA => Ok NA
  | Str s => Ok (Str (String.concat "" (replicate 100 s)))
  end.

(** [get_risk_level] applied to a cell of a column: every comparison with
    NaN is false, so a missing total falls through to "Failure"; a string
    cannot be compared with a number. *)
Definition risk_level_of (total : cell) : result cell :=
  match total with
  | Num q => Ok (Str (get_risk_level q))
  | NA => Ok (Str "Failure")
  | Str _ =>
      Raise (TypeError "'>=' not supported between instances of 'str' and 'int'")
  end.



(** [s.apply(f)], [s / d], [s * 100], [s.clip(0, upper)]. *)
Definition series_map (f : cell -> result cell) (s : list cell)
  : result (list cell) :=
  collect (map f s).

(** [data[col] = values]: an existing column is replaced where it stands,
    a new one is added after the others. *)
Definition set_column (data : DataFrame) (col : string) (values : list cell)
  : DataFrame :=
  match position col (columns data) with
  | Some i =>
      {| columns := columns data;
         rows := zip_with (fun row v => <[i := v]> row) (rows data) values |}
  | None =>
      {| columns := (columns data ++ [col])%list;
         rows := zip_with (fun row v => (row ++ [v])%list) (rows data) values |}
  end.

(** Two cells hold the same value, as [duplicated] compares them: missing
    values count as equal. *)
Definition same_value (a b : cell) : bool :=
  match a, b with
  | NA, NA => true
  | Num p, Num q => Qeq_bool p q
  | Str s, Str t => String.eqb s t
  | _, _ => false
  end.

(** [s.duplicated()] (keep='first'): the value occurs in an earlier row. *)
Fixpoint duplicated_from (seen : list cell) (s : list cell) : list bool :=
  match s with
  | [] => []
  | v :: s' => existsb (same_value v) seen :: duplicated_from (v :: seen) s'
  end.

Definition duplicated (s : list cell) : list bool := duplicated_from [] s.

(** [s.duplicated(keep=False)]: the value occurs in another row. *)
Fixpoint duplicated_all_from (before : list cell) (s : list cell) : list bool :=
  match s with
  | [] => []
  | v :: s' =>
      (existsb (same_value v) before || existsb (same_value v) s')
      :: duplicated_all_from (v :: before) s'
  end.

Definition duplicated_all (s : list cell) : list bool :=
  duplicated_all_from [] s.

(** [data.drop_duplicates(subset=[col], keep='first')]. *)
Definition drop_duplicates (data : DataFrame) (col : string) : DataFrame :=
  {| columns := columns data;
     rows := boolean_index (rows data) (map negb (duplicated (column data col))) |}.




(** [data['total_internal_marks'].apply(get_risk_level)]. *)
Definition risk_levels (data : DataFrame) : result (list cell) :=
  series_map risk_level_of (column data "total_internal_marks").

(** [(data['total_internal_marks'] / 60) * 100]. *)
Definition risk_scores (data : DataFrame) : result (list cell) :=
  s ← series_map (truediv 60) (column data "total_internal_marks");
  series_map times100 s.


End Frames.

(** ** pages/Files.py: the data transformation buttons *)

Module Files.
Import Utils Model Frames.

Inductive notice :=
| totals_recalculated
    (* st.success("Total marks recalculated successfully!") *)
| totals_not_saved
    (* st.error("Failed to save recalculated data") *)
| marks_not_available
    (* st.error("Not all marks columns are available") *)
| risk_levels_updated
    (* st.success("Risk levels updated successfully!") *)
| risk_levels_not_saved
    (* st.error("Failed to save updated risk levels") *)
| total_not_found
    (* st.error("Total internal marks column not found") *)
| found_duplicates (n : nat)
    (* st.warning(f"Found {len(duplicates)} duplicate student IDs") *)
| no_duplicates_found
    (* st.success("No duplicate student IDs found") *)
| removed_duplicates (n : nat)
    (* st.success(f"Removed {removed_count} duplicate records") *)
| cleaned_not_saved
    (* st.error("Failed to save cleaned data") *)
| nothing_to_remove
    (* st.info("No duplicates found to remove") *)
| student_id_not_found.
    (* st.error("Student ID column not found") *)

Section Buttons.
(** [utils.save_data], reduced to whether the frame could be written. *)
Variable save_data : DataFrame -> bool.


(** [update_risk_levels]. *)
Definition update_risk_levels (data : DataFrame)
  : result (DataFrame * list notice) :=
  if has_column data "total_internal_marks" then
    levels ← risk_levels data;
    let data := set_column data "risk_level" levels in
    scores ← risk_scores data;
    let data := set_column data "risk_score" scores in
    if save_data data then Ok (data, [risk_levels_updated])
    else Ok (data, [risk_levels_not_saved])
  else Ok (data, [total_not_found]).


(** [find_duplicates]: what it reports. *)
Definition find_duplicates (data : DataFrame) : list notice :=
  if has_column data "student_id" then
    let duplicates :=
      boolean_index (rows data) (duplicated_all (column data "student_id")) in
    if (0 <? length duplicates)%nat then [found_duplicates (length duplicates)]
    else [no_duplicates_found]
  else [student_id_not_found].

(** [remove_duplicates]: the frame handed to [save_data], when there is
    one, and what it reports. *)
Definition remove_duplicates (data : DataFrame)
  : option DataFrame * list notice :=
  if has_column data "student_id" then
    let initial_count := len data in
    let data_clean := drop_duplicates data "student_id" in
    let removed_count := (initial_count - len data_clean)%nat in
    if (0 <? removed_count)%nat then
      if save_data data_clean then
        (Some data_clean, [removed_duplicates removed_count])
      else (Some data_clean, [cleaned_not_saved])
    else (None, [nothing_to_remove])
  else (None, [student_id_not_found]).

End Buttons.

End Files.

(** ** pages/Import_CSV.py: derived columns of an upload, and cleaning *)

Module Import_CSV.
Import Utils Model Frames.




End Import_CSV.

(** ** utils.py: validation, metrics and the identity columns of the sample *)

Module Checks.
Import Utils Model Frames.

(** *** The e-mail pattern *)

(** The regular expressions the pattern needs: a literal character, a run
    of at least [min] characters of a class ([[...]+] is a run of at least
    1, [[...]{2,}] of at least 2), and concatenation. *)
Inductive regex :=
| Lit (c : ascii)
| Run (class : ascii -> bool) (min : nat)
| Seq (r1 r2 : regex).

(** The whole of [s] matches [r]. *)
Fixpoint fullmatch (r : regex) (s : list ascii) : bool :=
  match r with
  | Lit c => match s with [c'] => Ascii.eqb c c' | _ => false end
  | Run class min => (min <=? length s)%nat && forallb class s
  | Seq r1 r2 =>
      existsb (fun i => fullmatch r1 (take i s) && fullmatch r2 (drop i s))
              (seq 0 (S (length s)))
  end.

Definition between (lo hi c : ascii) : bool :=
  (nat_of_ascii lo <=? nat_of_ascii c)%nat
  && (nat_of_ascii c <=? nat_of_ascii hi)%nat.

Definition one_of (chars : string) (c : ascii) : bool :=
  existsb (Ascii.eqb c) (String.list_ascii_of_string chars).

(** [[a-zA-Z]], [[a-zA-Z0-9]]. *)
Definition letter (c : ascii) : bool :=
  between "a" "z" c || between "A" "Z" c.

Definition alphanumeric (c : ascii) : bool :=
  letter c || between "0" "9" c.

(** [^[a-zA-Z0-9._%+-]+@[a-zA-Z0-9.-]+\.[a-zA-Z]{2,}$]. *)
Definition email_pattern : regex :=
  Seq (Run (fun c => alphanumeric c || one_of "._%+-" c) 1)
 (Seq (Lit "@")
 (Seq (Run (fun c => alphanumeric c || one_of ".-" c) 1)
 (Seq (Lit ".")
      (Run letter 2)))).

Definition newline : ascii := ascii_of_nat 10.

(** [re.match] of a pattern written between [^] and [$]: [$] stands at the
    end of the string, or just before a newline that ends it. *)
Definition re_match (r : regex) (s : string) : bool :=
  let chars := String.list_ascii_of_string s in
  fullmatch r chars
  || match last chars with
     | Some c => Ascii.eqb c newline && fullmatch r (removelast chars)
     | None => false
     end.

(** [s.astype(str).str.match(email_pattern, na=False)] on a cell: the text
    of a number or of a missing value has no [@] and does not match. *)
Definition email_matches (c : cell) : bool :=
  match c with
  | Str s => re_match email_pattern s
  | _ => false
  end.

(** *** validate_student_data *)

(** The decimal text of a natural number, as an f-string writes it. *)
Definition decimal (n : nat) : string := NilEmpty.string_of_uint (Nat.to_uint n).

Definition required_columns : list string := ["student_id"; "name"; "email"].

Definition validate_student_data (df : DataFrame) : bool * string :=
  let missing_columns :=
    List.filter (fun col => negb (has_column df col)) required_columns in
  if (0 <? length missing_columns)%nat then
    (false, "Missing required columns: " ++ String.concat ", " missing_columns)
  else if existsb (fun b => b) (duplicated (column df "student_id")) then
    (false, "Duplicate student IDs found")
  else
    let invalid_emails :=
      {| columns := columns df;
         rows := boolean_index (rows df)
                   (map (fun c => negb (email_matches c)) (column df "email")) |} in
    if negb (empty invalid_emails) then
      (false,
       "Invalid email format for " ++ decimal (len invalid_emails) ++ " records")
    else (true, "Data validation successful").

(** *** The identity columns of generate_sample_data *)

(** [[f'STU{1000 + i}' for i in range(num_students)]]. *)
Definition student_ids (num_students : nat) : list string :=
  map (fun i => "STU" ++ decimal (1000 + i)) (seq 0 num_students).

(** [[f"student{i}@university.edu" for i in range(num_students)]]. *)
Definition emails (num_students : nat) : list string :=
  map (fun i => "student" ++ decimal i ++ "@university.edu") (seq 0 num_students).

(** The courses and their percentages. *)
Definition courses : list (string * nat) :=
  [("Computer Science Engineering", 30%nat);
   ("Electrical Engineering", 25%nat);
   ("Mechanical Engineering", 20%nat);
   ("Civil Engineering", 15%nat);
   ("Information Technology", 10%nat)].

(** "Generate course distribution": [int(num_students * percentage / 100)]
    entries for each course.  The quotient is a float that [int] rounds
    down; a quotient that is not whole lies at least 1/100 from the next
    whole number, far more than the rounding of the division, so this is
    the whole-number quotient. *)
Definition course_distribution (num_students : nat) : list string :=
  flat_map (fun '(course, percentage) =>
              replicate (num_students * percentage / 100) course) courses.

(** "Adjust for rounding": while the list is short, one random choice is
    appended ([choice k] is the k-th draw of [np.random.choice]); then
    [course_list[:num_students]]. *)
Fixpoint adjust (fuel : nat) (num_students : nat) (choice : nat -> string)
    (k : nat) (course_list : list string) : list string :=
  match fuel with
  | O => course_list
  | S fuel' =>
      if (length course_list <? num_students)%nat
      then adjust fuel' num_students choice (S k)
             (course_list ++ [choice k])%list
      else course_list
  end.

Definition course_list (num_students : nat) (choice : nat -> string)
  : list string :=
  take num_students
    (adjust num_students num_students choice 0 (course_distribution num_students)).

(** *** calculate_metrics *)

(** A value of the metrics dict: a count, the average, or the risk
    distribution (a dict from label to count, written as the list of its
    entries). *)
Inductive metric :=
| Count (n : nat)
| Average (a : cell)
| Distribution (d : list (cell * nat)).

(** [s.value_counts()]: the distinct values that are not missing, each with
    the number of rows that hold it. *)
Definition unique_values (s : list cell) : list cell :=
  List.filter notna (boolean_index s (map negb (duplicated s))).

Definition occurrences (v : cell) (s : list cell) : nat :=
  length (List.filter (same_value v) s).

Definition value_counts (s : list cell) : list (cell * nat) :=
  map (fun v => (v, occurrences v s)) (unique_values s).

(** [s.nunique()]. *)
Definition nunique (s : list cell) : nat := length (unique_values s).

(** [counts.get(label, default)]. *)
Definition counts_get (counts : list (cell * nat)) (label : cell) (default : nat)
  : nat :=
  match List.find (fun entry => same_value (fst entry) label) counts with
  | Some (_, n) => n
  | None => default
  end.

Section Metrics.
(** [Series.mean()], which pandas provides. *)
Variable mean : list cell -> result cell.

Definition calculate_metrics (data : DataFrame) : result (gmap string metric) :=
  if empty data then Ok ∅
  else
    average_marks ←
      (if has_column data "total_internal_marks"
       then mean (column data "total_internal_marks") else Ok (Num 0));
    let courses_count :=
      if has_column data "course_name"
      then nunique (column data "course_name") else 0%nat in
    let metrics : gmap string metric :=
      <["total_students" := Count (len data)]>
      (<["average_marks" := Average average_marks]>
      (<["courses_count" := Count courses_count]>
      (<["risk_distribution" := Distribution []]> ∅))) in
    if has_column data "risk_level" then
      let risk_counts := value_counts (column data "risk_level") in
      let metrics :=
        <["low_risk" := Count (counts_get risk_counts (Str "Low") 0)]>
        (<["medium_risk" := Count (counts_get risk_counts (Str "Medium") 0)]>
        (<["high_risk" := Count (counts_get risk_counts (Str "High") 0)]>
        (<["failure_risk" := Count (counts_get risk_counts (Str "Failure") 0)]>
         metrics))) in
      Ok (<["risk_distribution" := Distribution risk_counts]> metrics)
    else Ok metrics.

End Metrics.

(** [metrics.get(key, 0)] for a count, as the dashboards read it. *)
Definition count_of (metrics : gmap string metric) (key : string) : nat :=
  match metrics !! key with
  | Some (Count n) => n
  | _ => 0%nat
  end.

End Checks.

(** ** Notions and frames used in the further statements *)

Module Notions.
Import Utils Model Frames.

Section Storage.
Context `{sk : Sklearn}.

(** The storage after [os.makedirs('model', exist_ok=True)] has returned. *)
Definition with_model_directory (fs : Storage) : gmap string file :=
  match files fs !! "model" with
  | None => <["model" := Directory]> (files fs)
  | Some _ => files fs
  end.

End Storage.

(** A frame as [read_csv] and the pages build it: the column labels are
    distinct and every row has a cell for every column. *)
Definition well_formed (data : DataFrame) : Prop :=
  NoDup (columns data)
  /\ Forall (fun row => length row = length (columns data)) (rows data).







(** No two rows hold the same value in a column. *)
Definition distinct_values (s : list cell) : Prop :=
  forall i j a b, (i < j)%nat -> s !! i = Some a -> s !! j = Some b ->
                  same_value a b = false.

(** The values of a column that [drop_duplicates] keeps, [seen] being the
    values of the rows before. *)
Definition first_occurrences (seen s : list cell) : list cell :=
  boolean_index s (map negb (duplicated_from seen s)).


(** A row after [data[col] = values] has put [x] in it. *)
Definition updated_row (data : DataFrame) (col : string) (row : list cell)
    (x : cell) : list cell :=
  match position col (columns data) with
  | Some i => <[i := x]> row
  | None => (row ++ [x])%list
  end.

(** A frame with a repeated student id, a mark above its bound, a missing
    mark and stale derived columns. *)
Definition untidy : DataFrame :=
  {| columns := ["student_id"; "name"; "email"; "cat1_marks"; "cat2_marks";
                 "assignment_marks"; "attendance_marks"; "quiz_marks";
                 "total_internal_marks"; "risk_level"; "risk_score"];
     rows := [[Str "S1"; Str "Ann"; Str "ann@uni.edu"; Num 12; Num 5; Num 10;
               Num 3; Num 6; Num 50; Str "Low"; Num 10];
              [Str "S2"; Str "Bob"; Str "bob@uni.edu"; Num 9; NA; Num 10;
               Num 3; Num 6; Num 28; Str "High"; Num 20];
              [Str "S1"; Str "Cid"; Str "cid@uni.edu"; Num 2; Num 5; Num 20;
               Num 3; Num 6; Num 36; Str "Medium"; Num 60]] |}.


(** The characters allowed before and after the [@] of an e-mail. *)
Definition local_char (c : ascii) : bool :=
  Checks.alphanumeric c || Checks.one_of "._%+-" c.

Definition domain_char (c : ascii) : bool :=
  Checks.alphanumeric c || Checks.one_of ".-" c.

Definition at_sign : ascii := ascii_of_nat 64.

Definition full_stop : ascii := ascii_of_nat 46.

(** A text of the form local@domain.tld: a local part and a domain of one
    character or more, a last label of two letters or more. *)
Definition email_shape (chars : list ascii) : Prop :=
  exists loc dom tld,
    chars = (loc ++ at_sign :: dom ++ full_stop :: tld)%list
    /\ (1 <= length loc)%nat /\ forallb local_char loc = true
    /\ (1 <= length dom)%nat /\ forallb domain_char dom = true
    /\ (2 <= length tld)%nat /\ forallb Checks.letter tld = true.

(** An accepted e-mail: of that form, possibly followed by one newline. *)
Definition accepted_email (c : cell) : Prop :=
  exists s, c = Str s
    /\ (email_shape (String.list_ascii_of_string s)
        \/ exists body,
             String.list_ascii_of_string s = (body ++ [Checks.newline])%list
             /\ email_shape body).

(** The four labels, as cells. *)
Definition vocabulary : list cell :=
  [Str "Low"; Str "Medium"; Str "High"; Str "Failure"].

(** A frame with the three identity columns of the sample for three
    students. *)
Definition three_students : DataFrame :=
  {| columns := ["student_id"; "name"; "email"];
     rows := [[Str "STU1000"; Str "John Smith"; Str "student0@university.edu"];
              [Str "STU1001"; Str "Jane Brown"; Str "student1@university.edu"];
              [Str "STU1002"; Str "John Smith"; Str "student2@university.edu"]] |}.

(** The value of an expression that has returned. *)
Definition value_or {A} (r : result A) (d : A) : A :=
  match r with
  | Ok a => a
  | Raise _ => d
  end.

Definition returns {A} (r : result A) : bool :=
  match r with
  | Ok _ => true
  | Raise _ => false
  end.

(** [Series.mean()] on a column of numbers: missing values are skipped, and
    a column without a number has a missing mean. *)
Definition mean_of_numbers (s : list cell) : result cell :=
  if existsb (fun c => match c with Str _ => true | _ => false end) s then
    Raise (TypeError "Could not convert string to numeric")
  else
    let present :=
      flat_map (fun c => match c with Num q => [q] | _ => [] end) s in
    match present with
    | [] => Ok NA
    | _ => Ok (Num (fold_right Qplus 0%Q present
                    / inject_Z (Z.of_nat (length present))))
    end.

(** The sum of the four risk counts of a metrics dict, as the dashboards
    read them. *)
Definition risk_counts_total (metrics : gmap string Checks.metric) : nat :=
  (Checks.count_of metrics "low_risk" + Checks.count_of metrics "medium_risk"
   + Checks.count_of metrics "high_risk"
   + Checks.count_of metrics "failure_risk")%nat.

(** A [save_data] that writes every frame. *)
Definition always_saved : DataFrame -> bool := fun _ => true.

(** The frames that the buttons and the upload leave of the examples. *)
Definition updated : DataFrame * list Files.notice :=
  value_or (Files.update_risk_levels always_saved untidy) (untidy, []).




(** The metrics of the untidy frame, before and after "Update Risk
    Levels". *)
Definition untidy_metrics : gmap string Checks.metric :=
  value_or (Checks.calculate_metrics mean_of_numbers untidy) ∅.

Definition updated_metrics : gmap string Checks.metric :=
  value_or (Checks.calculate_metrics mean_of_numbers (fst updated)) ∅.

(** The "Train ML Model" button on the twelve rows, a new predictor and an
    empty storage; the predictor that a load of the saved model gives. *)
Definition tab_run :=
  @Analytics.train_button Baseline.sklearn Baseline.twelve_rows new_predictor
    Baseline.empty_storage.

Definition restored : @StudentPredictor Baseline.sklearn :=
  fst (fst (load_model Baseline.saved_storage default_filename new_predictor)).

(** A predictor whose flag says trained while nothing else was set. *)
Definition flag_only : @StudentPredictor Baseline.sklearn :=
  set_is_trained true new_predictor.

End Notions.

(** * Properties of the bucketer and of the derived columns *)

Section BucketFacts.
Import Utils.
Local Open Scope Q_scope.

Lemma ge_spec (a b : Q) : ge a b = true <-> b <= a.
Proof. unfold ge. apply Qle_bool_iff. Qed.

Lemma ge_false (a b : Q) : ge a b = false <-> a < b.
Proof.
  rewrite <- not_true_iff_false, ge_spec. split.
  - apply Qnot_le_lt.
  - apply Qlt_not_le.
Qed.

Lemma get_risk_level_cases (t : Q) : bucket_of t (get_risk_level t).
Proof.
  unfold get_risk_level.
  destruct (ge t 45) eqn:H45; [constructor; by apply ge_spec|].
  destruct (ge t 35) eqn:H35;
    [constructor; [by apply ge_spec | by apply ge_false]|].
  destruct (ge t 25) eqn:H25;
    [constructor; [by apply ge_spec | by apply ge_false]|].
  constructor. by apply ge_false.
Qed.



(** C1. [get_risk_level] is a total function of the number it is given
    and returns one of the four labels, decided by the thresholds alone,
    whatever the number (negative or above 60 as well): "Low" exactly when
    [total_marks >= 45], "Medium" exactly when [35 <= total_marks < 45],
    "High" exactly when [25 <= total_marks < 35] and "Failure" exactly when
    [total_marks < 25]. *)
Theorem get_risk_level_thresholds (total_marks : Q) :
  get_risk_level total_marks ∈ ["Low"; "Medium"; "High"; "Failure"]
  /\ (get_risk_level total_marks = "Low" <-> 45 <= total_marks)
  /\ (get_risk_level total_marks = "Medium" <->
      35 <= total_marks /\ total_marks < 45)
  /\ (get_risk_level total_marks = "High" <->
      25 <= total_marks /\ total_marks < 35)
  /\ (get_risk_level total_marks = "Failure" <-> total_marks < 25).
Proof.
  split.
  { destruct (get_risk_level_cases total_marks);
      apply list_elem_of_In; simpl; tauto. }
  repeat split; intros;
    destruct (get_risk_level_cases total_marks);
    repeat match goal with
           | H : _ /\ _ |- _ => destruct H
           | H : @eq string _ _ |- _ => discriminate H
           end;
    try done;
    exfalso;
    repeat match goal with
           | H1 : ?a <= ?t, H2 : ?t < ?b |- _ =>
               apply (Qlt_irrefl a); apply (Qle_lt_trans _ _ _ H1);
               first [ exact H2 | apply (Qlt_trans _ _ _ H2); reflexivity ]
           end.
Qed.

Lemma rank_get_risk_level (t : Q) :
  rank (get_risk_level t) =
    Some (if ge t 45 then 3 else if ge t 35 then 2 else if ge t 25 then 1 else 0)%nat.
Proof.
  unfold get_risk_level.
  destruct (ge t 45); [done|]. destruct (ge t 35); [done|].
  by destruct (ge t 25).
Qed.

Lemma ge_mono (a a' b : Q) : a <= a' -> ge a b = true -> ge a' b = true.
Proof. rewrite !ge_spec. intros H1 H2. by apply (Qle_trans _ a). Qed.

(** C7. The bucketer is monotone for the order Failure < High < Medium <
    Low: when [total1 <= total2], both buckets have a rank and the rank of
    the first is at most the rank of the second. *)
Theorem get_risk_level_monotone (total1 total2 : Q) :
  total1 <= total2 ->
  exists r1 r2 : nat,
    rank (get_risk_level total1) = Some r1
    /\ rank (get_risk_level total2) = Some r2
    /\ (r1 <= r2)%nat.
Proof.
  intros Hle. eexists _, _. rewrite !rank_get_risk_level.
  split; [reflexivity|]. split; [reflexivity|].
  pose proof (ge_mono total1 total2 45 Hle) as M45.
  pose proof (ge_mono total1 total2 35 Hle) as M35.
  pose proof (ge_mono total1 total2 25 Hle) as M25.
  destruct (ge total1 45); [rewrite M45 by done; lia|].
  destruct (ge total1 35);
    [rewrite M35 by done; destruct (ge total2 45); lia|].
  destruct (ge total1 25);
    [rewrite M25 by done; destruct (ge total2 45), (ge total2 35); lia|].
  destruct (ge total2 45), (ge total2 35), (ge total2 25); lia.
Qed.

Lemma get_risk_level_monotone_witness :
  30 <= 40 /\
  exists r1 r2 : nat,
    rank (get_risk_level 30) = Some r1
    /\ rank (get_risk_level 40) = Some r2
    /\ (r1 <= r2)%nat.
Proof.
  split; [discriminate|].
  apply (get_risk_level_monotone 30 40). discriminate.
Defined.

End BucketFacts.

Section DerivedFacts.
Import Utils.
Local Open Scope Q_scope.








End DerivedFacts.

(** * Properties of the predictor *)

Section PredictorFacts.
Import Model.
Context `{sk : Sklearn}.

(** ** Running a method body *)

Lemma try_except_ok {S A} (body : Method S A) handler s s' log a :
  body s = (s', log, Ok a) -> try_except body handler s = (s', log, Ok a).
Proof. unfold try_except. by intros ->. Qed.

Lemma try_except_raise {S A} (body : Method S A) handler s s1 log1 e :
  body s = (s1, log1, Raise e) ->
  try_except body handler s =
    (let '(s2, log2, r) := handler e s1 in (s2, (log1 ++ log2)%list, r)).
Proof. unfold try_except. by intros ->. Qed.

Lemma bind_eval_ok {S A B} (a : A) (k : A -> Method S B) s :
  (eval (Ok a) ≫= k) s = k a s.
Proof.
  unfold mbind, method_bind, eval. by destruct (k a s) as [[? ?] ?].
Qed.

Lemma bind_eval_raise {S A B} (e : exn) (k : A -> Method S B) s :
  (eval (Raise e) ≫= k) s = (s, [], Raise e).
Proof. reflexivity. Qed.

Lemma bind_modify {S B} (f : S -> S) (k : unit -> Method S B) s :
  (modify f ≫= k) s = k tt (f s).
Proof.
  unfold mbind, method_bind, modify. by destruct (k tt (f s)) as [[? ?] ?].
Qed.

Lemma bind_get {S B} (k : S -> Method S B) s : (get ≫= k) s = k s s.
Proof.
  unfold mbind, method_bind, get. by destruct (k s s) as [[? ?] ?].
Qed.

Lemma bind_st {S B} (r : report) (k : unit -> Method S B) s :
  (st r ≫= k) s = (let '(s2, log2, x) := k tt s in (s2, r :: log2, x)).
Proof. reflexivity. Qed.

(** ** Cleaning the rows *)

Lemma boolean_index_map {A B} (f : A -> B) (p : A -> bool) (l : list A) :
  boolean_index (map f l) (map p l) = map f (List.filter p l).
Proof.
  induction l as [|x l IH]; [done|]. simpl.
  destruct (p x); simpl; by rewrite IH.
Qed.

Lemma complete_mask_map {A} (f : A -> list cell) (g : A -> cell) (l : list A) :
  complete_mask (map f l) (map g l) =
    map (fun r => forallb notna (f r) && notna (g r)) l.
Proof.
  unfold complete_mask. induction l as [|x l IH]; [done|].
  simpl. by rewrite IH.
Qed.

Lemma forallb_notna_map {A} (f : A -> cell) (l : list A) :
  forallb notna (map f l) = forallb (fun x => notna (f x)) l.
Proof. induction l as [|x l IH]; [done|]. simpl. by rewrite IH. Qed.

Lemma filter_ext_bool {A} (p q : A -> bool) (l : list A) :
  (forall x, p x = q x) -> List.filter p l = List.filter q l.
Proof.
  intros E. induction l as [|x l IH]; [done|]. simpl. by rewrite E, IH.
Qed.

(** The rows [train_model] keeps are the usable rows, restricted to the
    selected columns. *)
Lemma cleaned_X (data : DataFrame) :
  boolean_index (select data (available_features data))
    (complete_mask (select data (available_features data))
       (column data "risk_level")) =
    map (fun row => map (cell_at data row) (available_features data))
        (usable_rows data).
Proof.
  unfold select, column.
  rewrite complete_mask_map, boolean_index_map. f_equal.
  apply filter_ext_bool. intros row. unfold usable.
  by rewrite forallb_notna_map.
Qed.

Lemma cleaned_y (data : DataFrame) :
  boolean_index (column data "risk_level")
    (complete_mask (select data (available_features data))
       (column data "risk_level")) = usable_labels data.
Proof.
  unfold select, column, usable_labels.
  rewrite complete_mask_map, boolean_index_map. f_equal.
  apply filter_ext_bool. intros row. unfold usable.
  by rewrite forallb_notna_map.
Qed.

Lemma cleaned_X_length (data : DataFrame) :
  length (boolean_index (select data (available_features data))
            (complete_mask (select data (available_features data))
               (column data "risk_level"))) = length (usable_rows data).
Proof. rewrite (cleaned_X data). apply length_map. Qed.

Lemma has_column_spec (data : DataFrame) (col : string) :
  has_column data col = true <-> col ∈ columns data.
Proof. unfold has_column. apply bool_decide_eq_true. Qed.

Lemma passes_checks_false (data : DataFrame) :
  passes_checks data = false <-> early_exit data.
Proof.
  unfold passes_checks, early_exit, len.
  rewrite !andb_false_iff, !negb_false_iff, orb_true_iff, !Nat.ltb_lt.
  rewrite <- not_true_iff_false, has_column_spec.
  split.
  - intros [[[[He|?]|?]|?]|?]; auto.
    unfold empty in He. destruct (rows data); [left; simpl; lia|].
    destruct (columns data) eqn:Hc; [|done].
    right. left. unfold available_features, has_column. rewrite Hc.
    simpl. lia.
  - intros [?|[?|[?|?]]]; auto.
Qed.

Lemma passes_checks_true (data : DataFrame) :
  passes_checks data = true <-> ~ early_exit data.
Proof.
  rewrite <- passes_checks_false. by destruct (passes_checks data).
Qed.

(** ** The outcomes of train_model *)

Lemma bind_fit_model {B} X y (k : unit -> Method StudentPredictor B) self :
  (fit_model X y ≫= k) self =
    match fit (model self) X y with
    | (m, None) => k tt (set_model m self)
    | (m, Some e) => (set_model m self, [], Raise e)
    end.
Proof.
  unfold mbind, method_bind, fit_model.
  destruct (fit (model self) X y) as [m [e|]]; [done|].
  by destruct (k tt (set_model m self)) as [[? ?] ?].
Qed.

Lemma importance_frame_ok features importances frame :
  importance_frame features importances = Ok frame ->
  length importances = length features /\ frame = zip features importances.
Proof.
  unfold importance_frame. case_decide; [|done]. by intros [= <-].
Qed.

(** A run that leaves by an early exit reports once and touches nothing. *)
Lemma train_body_early (data : DataFrame) (self : StudentPredictor) :
  passes_checks data = false ->
  exists r, train_body data self = (self, [r], Ok false).
Proof.
  unfold passes_checks, train_body. intros H.
  destruct (empty data || (len data <? 10)%nat) eqn:E1; [by eexists|].
  destruct (length (available_features data) <? 3)%nat eqn:E2; [by eexists|].
  destruct (has_column data "risk_level") eqn:E3; [|by eexists].
  simpl in H. rewrite cleaned_X_length. rewrite negb_false_iff in H.
  rewrite H. by eexists.
Qed.

Lemma train_body_late (data : DataFrame) (self : StudentPredictor) :
  passes_checks data = true -> late_outcome data self (train_body data self).
Proof.
  unfold passes_checks, train_body. intros H.
  destruct (empty data || (len data <? 10)%nat) eqn:E1; [done|].
  destruct (length (available_features data) <? 3)%nat eqn:E2; [done|].
  destruct (has_column data "risk_level") eqn:E3; [|done].
  simpl in H. rewrite cleaned_X_length. rewrite negb_true_iff in H.
  rewrite H. simpl. rewrite cleaned_X, cleaned_y.
  destruct (fit_transform (usable_labels data)) as [[le codes]|e] eqn:Ef;
    [rewrite bind_eval_ok | rewrite bind_eval_raise;
       by constructor].
  rewrite bind_modify.
  match goal with |- context [eval ?r ≫= _] =>
    destruct r as [[[[X_train X_test] y_train] y_test]|e] eqn:Es end;
    [rewrite bind_eval_ok | rewrite bind_eval_raise;
       by econstructor 2].
  rewrite bind_fit_model. simpl.
  destruct (fit (model self) X_train y_train) as [m [e|]] eqn:Efit;
    [by econstructor 2|].
  rewrite bind_get.
  match goal with |- context [eval ?r ≫= _] =>
    destruct r as [y_pred|e] eqn:Ep end;
    [rewrite bind_eval_ok | rewrite bind_eval_raise;
       by econstructor 2].
  match goal with |- context [eval ?r ≫= _] =>
    destruct r as [accuracy|e] eqn:Ea end;
    [rewrite bind_eval_ok | rewrite bind_eval_raise;
       by econstructor 2].
  match goal with |- context [eval ?r ≫= _] =>
    destruct r as [importances|e] eqn:Ei end;
    [rewrite bind_eval_ok | rewrite bind_eval_raise;
       by econstructor 2].
  match goal with |- context [eval ?r ≫= _] =>
    destruct r as [frame|e] eqn:Efr end;
    [rewrite bind_eval_ok | rewrite bind_eval_raise;
       by econstructor 2].
  apply importance_frame_ok in Efr as [Hlen ->].
  rewrite !bind_modify, bind_st, bind_get. simpl.
  by econstructor 3.
Qed.

Lemma train_model_early (data : DataFrame) (self : StudentPredictor) :
  early_exit data -> exists r, train_model data self = (self, [r], Ok false).
Proof.
  intros H%passes_checks_false.
  destruct (train_body_early data self H) as [r Hr].
  exists r. unfold train_model. by rewrite (try_except_ok _ _ _ _ _ _ Hr).
Qed.

Lemma train_model_late (data : DataFrame) (self : StudentPredictor) :
  ~ early_exit data ->
  (exists e, fit_transform (usable_labels data) = Raise e
     /\ train_model data self = (self, [st_error (ErrorTraining e)], Ok false))
  \/ (exists le codes self' e,
        fit_transform (usable_labels data) = Ok (le, codes)
        /\ train_model data self =
             (self', [st_error (ErrorTraining e)], Ok false)
        /\ is_trained self' = is_trained self
        /\ feature_importance self' = feature_importance self
        /\ label_encoders self' =
             <["risk_level" := le]> (label_encoders self))
  \/ (exists le codes self' log importances,
        fit_transform (usable_labels data) = Ok (le, codes)
        /\ train_model data self = (self', log, Ok true)
        /\ is_trained self' = true
        /\ feature_importances_ (model self') = Ok importances
        /\ length importances = length (available_features data)
        /\ feature_importance self' =
             Some (sort_values_desc (zip (available_features data) importances))
        /\ label_encoders self' =
             <["risk_level" := le]> (label_encoders self)).
Proof.
  intros H%passes_checks_true.
  pose proof (train_body_late data self H) as Hlate.
  unfold train_model.
  inversion Hlate as [e Hf Hb | le codes self' e Hf H1 H2 H3 Hb
                     | le codes self' acc imps Hf H1 H2 H3 H4 H5 Hb].
  - left. exists e. split; [done|].
    by rewrite (try_except_raise _ _ _ _ _ _ (eq_sym Hb)).
  - right. left. exists le, codes, self', e. split; [done|].
    by rewrite (try_except_raise _ _ _ _ _ _ (eq_sym Hb)).
  - right. right. eexists le, codes, self', _, imps. split; [done|].
    by rewrite (try_except_ok _ _ _ _ _ _ (eq_sym Hb)).
Qed.

(** C5. [train_model] returns False, reports once and leaves the
    predictor as it was (so an untrained one stays untrained) whenever the
    frame has fewer than 10 rows, or fewer than 10 rows once those with a
    missing mark or label are dropped, or fewer than 3 of the 5 mark
    columns, or no [risk_level] column; a frame of 9 rows or fewer is the
    first case, whatever else it holds. *)
Theorem train_model_preconditions (data : DataFrame) (self : StudentPredictor) :
  (len data < 10)%nat
  \/ (length (usable_rows data) < 10)%nat
  \/ (length (available_features data) < 3)%nat
  \/ "risk_level" ∉ columns data ->
  exists self' r,
    train_model data self = (self', [r], Ok false)
    /\ self' = self
    /\ (is_trained self = false -> is_trained self' = false).
Proof.
  intros H.
  destruct (train_model_early data self) as [r Hr].
  { unfold early_exit. tauto. }
  by exists self, r.
Qed.

(** What a call of [train_model] returns and what it leaves behind. *)
Lemma train_model_returns (data : DataFrame) (self : StudentPredictor) :
  exists self' log b,
    train_model data self = (self', log, Ok b)
    /\ (b = false ->
        is_trained self' = is_trained self
        /\ feature_importance self' = feature_importance self
        /\ (early_exit data
             \/ (exists e, fit_transform (usable_labels data) = Raise e) ->
             self' = self)
        /\ (forall le codes,
             ~ early_exit data ->
             fit_transform (usable_labels data) = Ok (le, codes) ->
             label_encoders self' =
               <["risk_level" := le]> (label_encoders self))).
Proof.
  destruct (passes_checks data) eqn:Hp.
  - apply passes_checks_true in Hp as Hne.
    destruct (train_model_late data self Hne)
      as [(e & Hf & Hr) | [(le & codes & self' & e & Hf & Hr & H1 & H2 & H3)
         | (le & codes & self' & log & imps & Hf & Hr & _)]].
    + eexists _, _, _. split; [exact Hr|]. intros _.
      split; [done|]. split; [done|]. split; [done|].
      intros le codes _ Hok. congruence.
    + eexists _, _, _. split; [exact Hr|]. intros _.
      split; [done|]. split; [done|]. split.
      * intros [He | [e' He']]; [done | congruence].
      * intros le' codes' _ Hok. congruence.
    + eexists _, _, _. split; [exact Hr|]. done.
  - apply passes_checks_false in Hp as He.
    destruct (train_model_early data self He) as [r Hr].
    eexists _, _, _. split; [exact Hr|]. intros _.
    split; [done|]. split; [done|]. split; [done|].
    intros le codes Hne. done.
Qed.

(** C3, as amended. [train_model] never lets an exception escape: it
    returns True or False.  When it returns False, [is_trained] and
    [feature_importance] are as before the call (an untrained predictor
    stays untrained); when the failure is an early exit or the label
    encoding raised, the whole predictor is as before the call; when a
    later step raised, [label_encoders] is as before except that
    ['risk_level'] holds the new encoder. *)
Theorem train_model_failure (data : DataFrame) (self : StudentPredictor) :
  exists self' log b,
    train_model data self = (self', log, Ok b)
    /\ (b = false ->
        is_trained self' = is_trained self
        /\ feature_importance self' = feature_importance self
        /\ (early_exit data
             \/ (exists e, fit_transform (usable_labels data) = Raise e) ->
             self' = self)
        /\ (forall le codes,
             ~ early_exit data ->
             fit_transform (usable_labels data) = Ok (le, codes) ->
             label_encoders self' =
               <["risk_level" := le]> (label_encoders self))).
Proof. exact (train_model_returns data self). Qed.

(** ** The importance ranking *)

Lemma insert_desc_perm (r : string * Q) (f : ImportanceFrame) :
  insert_desc r f ≡ₚ r :: f.
Proof.
  induction f as [|r' f IH]; [done|]. simpl.
  destruct (Qlt_le_dec (snd r) (snd r')); [|done].
  rewrite IH. apply Permutation_swap.
Qed.

Lemma sort_values_desc_perm (f : ImportanceFrame) : sort_values_desc f ≡ₚ f.
Proof.
  induction f as [|r f IH]; [done|]. simpl.
  by rewrite insert_desc_perm, IH.
Qed.

Lemma insert_desc_hd (a r : string * Q) (f : ImportanceFrame) :
  by_importance a r -> HdRel by_importance a f ->
  HdRel by_importance a (insert_desc r f).
Proof.
  intros Har Haf. destruct f as [|r' f]; simpl; [by constructor|].
  destruct (Qlt_le_dec (snd r) (snd r')); constructor; [|done].
  by inversion Haf.
Qed.

Lemma insert_desc_sorted (r : string * Q) (f : ImportanceFrame) :
  Sorted by_importance f -> Sorted by_importance (insert_desc r f).
Proof.
  induction 1 as [|r' f Hs IH Hhd]; simpl; [by repeat constructor|].
  destruct (Qlt_le_dec (snd r) (snd r')) as [Hlt|Hle].
  - constructor; [done|]. apply insert_desc_hd; [|done].
    unfold by_importance. by apply Qlt_le_weak.
  - constructor; [by constructor|]. by constructor.
Qed.

Lemma sort_values_desc_sorted (f : ImportanceFrame) :
  Sorted by_importance (sort_values_desc f).
Proof.
  induction f as [|r f IH]; simpl; [constructor|].
  by apply insert_desc_sorted.
Qed.

Lemma zip_features (features : list string) (importances : list Q) :
  length importances = length features ->
  map fst (zip features importances) = features.
Proof.
  revert importances. induction features as [|c cs IH]; intros [|q qs] Hl;
    simpl in *; try done.
  f_equal. apply IH. lia.
Qed.

Lemma map_fst_perm (f g : ImportanceFrame) : f ≡ₚ g -> map fst f ≡ₚ map fst g.
Proof. induction 1; simpl; by econstructor. Qed.

(** ** Python's max *)




(** ** The outcomes of load_model and save_model *)

Lemma load_model_missing fs filename (self : StudentPredictor) :
  files fs !! filename = None ->
  load_model fs filename self = (self, [], Ok false).
Proof.
  intros H. unfold load_model, try_except, path_exists. rewrite H.
  rewrite bool_decide_eq_false_2; [done|]. by intros [? ?].
Qed.

Lemma load_model_unreadable fs filename (self : StudentPredictor) :
  files fs !! filename = Some Garbage \/ files fs !! filename = Some Directory ->
  exists e, load_model fs filename self =
              (self, [st_error (ErrorLoading e)], Ok false).
Proof.
  intros H. unfold load_model, try_except, path_exists, joblib_load.
  destruct H as [H|H]; rewrite H;
    (rewrite bool_decide_eq_true_2 by (by eexists)); by eexists.
Qed.

(** The four reads and assignments, one after the other. *)
Lemma load_model_pickled fs filename (self : StudentPredictor) d :
  files fs !! filename = Some (Pickled d) ->
  load_model fs filename self =
    match key_model d with
    | None => (self, [st_error (ErrorLoading (KeyError "model"))], Ok false)
    | Some m =>
      match key_label_encoders d with
      | None =>
          (set_model m self,
           [st_error (ErrorLoading (KeyError "label_encoders"))], Ok false)
      | Some e =>
        match key_feature_importance d with
        | None =>
            (set_label_encoders e (set_model m self),
             [st_error (ErrorLoading (KeyError "feature_importance"))], Ok false)
        | Some f =>
          match key_is_trained d with
          | None =>
              (set_feature_importance f (set_label_encoders e (set_model m self)),
               [st_error (ErrorLoading (KeyError "is_trained"))], Ok false)
          | Some b =>
              ({| model := m; is_trained := b; label_encoders := e;
                  feature_importance := f |}, [], Ok true)
          end
        end
      end
    end.
Proof.
  intros H. unfold load_model, try_except, path_exists, joblib_load.
  rewrite H. rewrite bool_decide_eq_true_2 by (by eexists).
  rewrite bind_eval_ok.
  destruct (key_model d) as [m|]; [|done].
  simpl blob_item. rewrite bind_eval_ok, bind_modify.
  destruct (key_label_encoders d) as [e|]; [|done].
  simpl blob_item. rewrite bind_eval_ok, bind_modify.
  destruct (key_feature_importance d) as [f|]; [|done].
  simpl blob_item. rewrite bind_eval_ok, bind_modify.
  destruct (key_is_trained d) as [b|]; [|done].
  simpl blob_item. by rewrite bind_eval_ok, bind_modify.
Qed.

Lemma load_model_returns fs filename (self : StudentPredictor) :
  exists self' log b,
    load_model fs filename self = (self', log, Ok b)
    /\ (b = false -> is_trained self' = is_trained self).
Proof.
  destruct (files fs !! filename) as [[| |d]|] eqn:H.
  - destruct (load_model_unreadable fs filename self) as [e ->]; [by right|].
    by eexists _, _, _.
  - destruct (load_model_unreadable fs filename self) as [e ->]; [by left|].
    by eexists _, _, _.
  - rewrite (load_model_pickled _ _ _ _ H).
    destruct (key_model d); [|by eexists _, _, _].
    destruct (key_label_encoders d); [|by eexists _, _, _].
    destruct (key_feature_importance d); [|by eexists _, _, _].
    destruct (key_is_trained d); by eexists _, _, _.
  - rewrite (load_model_missing _ _ _ H). by eexists _, _, _.
Qed.

Lemma load_model_state_dict fs filename (self other : StudentPredictor) :
  files fs !! filename = Some (Pickled (state_dict self)) ->
  load_model fs filename other = (self, [], Ok true).
Proof.
  intros H. rewrite (load_model_pickled _ _ _ _ H). simpl. by destruct self.
Qed.

Lemma save_model_true (self : StudentPredictor) filename fs fs' log :
  save_model self filename fs = (fs', log, Ok true) ->
  files fs' !! filename = Some (Pickled (state_dict self)) /\ log = [].
Proof.
  unfold save_model, try_except, makedirs, joblib_dump.
  unfold mbind, method_bind, mret, method_ret.
  destruct (files fs !! "model") as [[| |]|]; try done.
  - case_decide; [done|].
    destruct (files fs !! filename) as [[| |]|];
      intros [= <- <-]; simpl; by rewrite ?lookup_insert_eq.
  - case_decide; [done|]. simpl.
    case_decide; [done|].
    destruct (decide (filename = "model")) as [->|Hne].
    + rewrite lookup_insert_eq. done.
    + rewrite lookup_insert_ne by done.
      destruct (files fs !! filename) as [[| |]|];
        intros [= <- <-]; simpl; by rewrite ?lookup_insert_eq.
Qed.

Lemma save_model_can_save (self : StudentPredictor) filename fs :
  can_save fs filename ->
  exists fs', save_model self filename fs = (fs', [], Ok true).
Proof.
  intros ([Hm|[Hm Hd]] & Hf & Hne & Hdir);
    unfold save_model, try_except, makedirs, joblib_dump;
    unfold mbind, method_bind, mret, method_ret; rewrite Hm.
  - rewrite decide_False by done.
    destruct (files fs !! filename) as [[| |]|]; [done|..];
      eexists; reflexivity.
  - rewrite decide_False by done. simpl.
    rewrite decide_False by done. rewrite lookup_insert_ne by done.
    destruct (files fs !! filename) as [[| |]|]; [done|..];
      eexists; reflexivity.
Qed.

(** ** The outcomes of predict_risk *)

Lemma predict_risk_not_trained (self : StudentPredictor) features_dict :
  is_trained self = false ->
  predict_risk self features_dict = Ok (Str "Model not trained", 0%Q).
Proof. unfold predict_risk. by intros ->. Qed.

Lemma never_trained_flag (self : StudentPredictor) :
  never_trained self -> is_trained self = false.
Proof.
  induction 1 as [|data self self' log _ IH Ht|fs filename self self' log _ IH Hl].
  - done.
  - destruct (train_model_returns data self) as (s & l & b & E & Hb).
    rewrite Ht in E. injection E as <- <- <-.
    destruct Hb as [-> _]; done.
  - destruct (load_model_returns fs filename self) as (s & l & b & E & Hb).
    rewrite Hl in E. injection E as <- <- <-. by rewrite Hb.
Qed.


(** The steps of a call that returns a label. *)
Lemma predict_body_ok (self : StudentPredictor) features_dict label confidence :
  predict_body self features_dict = Ok (label, confidence) ->
  exists frame code codes proba probas le labels greatest,
    feature_importance self = Some frame
    /\ predict (model self) [features_array features_dict (map fst frame)]
         = Ok (code :: codes)
    /\ predict_proba (model self) [features_array features_dict (map fst frame)]
         = Ok (proba :: probas)
    /\ label_encoders self !! "risk_level" = Some le
    /\ inverse_transform le [code] = Ok (label :: labels)
    /\ py_max proba = Ok greatest
    /\ confidence = (greatest * 100)%Q.
Proof.
  unfold predict_body, mbind, result_bind, getitem, item0.
  destruct (feature_importance self) as [frame|]; [|done].
  destruct (predict _ _) as [[|code codes]|] eqn:Hp; try done.
  destruct (predict_proba _ _) as [[|proba probas]|] eqn:Hq; try done.
  destruct (label_encoders self !! "risk_level") as [le|] eqn:Hle; [|done].
  destruct (inverse_transform le [code]) as [[|label' labels]|] eqn:Hi; try done.
  destruct (py_max proba) as [greatest|] eqn:Hm; [|done].
  intros [= -> <-]. by eexists frame, code, codes, proba, probas, le, labels, greatest.
Qed.

(** C8. On a predictor that no call has trained or restored,
    [predict_risk] returns the label "Model not trained" with confidence 0,
    whatever the feature mapping; it returns and does not raise. *)
Theorem predict_risk_untrained (self : StudentPredictor)
    (features_dict : gmap string cell) :
  never_trained self ->
  predict_risk self features_dict = Ok (Str "Model not trained", 0%Q).
Proof.
  intros H. apply predict_risk_not_trained. by apply never_trained_flag.
Qed.


(** C2. Once [save_model] of a trained predictor has returned True,
    [load_model] of the same file on any predictor returns True and makes
    that predictor equal to the saved one, field by field; [predict_risk]
    then returns the same label and the same confidence on both, for every
    feature mapping. *)
Theorem save_load_round_trip (P other : StudentPredictor)
    (filename : string) (fs fs' : Storage) (log : list report) :
  is_trained P = true ->
  save_model P filename fs = (fs', log, Ok true) ->
  exists P',
    load_model fs' filename other = (P', [], Ok true)
    /\ model P' = model P
    /\ label_encoders P' = label_encoders P
    /\ feature_importance P' = feature_importance P
    /\ is_trained P' = true
    /\ forall features_dict,
         predict_risk P' features_dict = predict_risk P features_dict.
Proof.
  intros Ht [Hfile _]%save_model_true. exists P.
  split; [by apply load_model_state_dict|]. by rewrite Ht.
Qed.

(** C4, as amended. [load_model] never raises and is decided by what
    the file holds.  A missing file is not an error: False, no report,
    nothing touched.  A file that cannot be loaded: False, one report,
    nothing touched.  A dict with the four keys: the four fields are
    replaced together and the call returns True.  A dict that lacks a key:
    False and one report, after the fields read before the first missing
    key (in the order model, label_encoders, feature_importance, is_trained)
    have been replaced.  A call that returns False never changes
    [is_trained]. *)
Theorem load_model_outcomes (fs : Storage) (filename : string)
    (self : StudentPredictor) :
  match files fs !! filename with
  | None => load_model fs filename self = (self, [], Ok false)
  | Some Directory | Some Garbage =>
      exists e, load_model fs filename self
                = (self, [st_error (ErrorLoading e)], Ok false)
  | Some (Pickled d) =>
      match key_model d, key_label_encoders d,
            key_feature_importance d, key_is_trained d with
      | Some m, Some e, Some f, Some b =>
          load_model fs filename self =
            ({| model := m; is_trained := b; label_encoders := e;
                feature_importance := f |}, [], Ok true)
      | Some m, Some e, Some f, None =>
          load_model fs filename self =
            ({| model := m; is_trained := is_trained self;
                label_encoders := e; feature_importance := f |},
             [st_error (ErrorLoading (KeyError "is_trained"))], Ok false)
      | Some m, Some e, None, _ =>
          load_model fs filename self =
            ({| model := m; is_trained := is_trained self;
                label_encoders := e;
                feature_importance := feature_importance self |},
             [st_error (ErrorLoading (KeyError "feature_importance"))], Ok false)
      | Some m, None, _, _ =>
          load_model fs filename self =
            ({| model := m; is_trained := is_trained self;
                label_encoders := label_encoders self;
                feature_importance := feature_importance self |},
             [st_error (ErrorLoading (KeyError "label_encoders"))], Ok false)
      | None, _, _, _ =>
          load_model fs filename self =
            (self, [st_error (ErrorLoading (KeyError "model"))], Ok false)
      end
  end
  /\ (forall self' log,
        load_model fs filename self = (self', log, Ok false) ->
        is_trained self' = is_trained self).
Proof.
  split.
  - destruct (files fs !! filename) as [[| |d]|] eqn:H.
    + apply load_model_unreadable. by right.
    + apply load_model_unreadable. by left.
    + rewrite (load_model_pickled _ _ _ _ H).
      destruct (key_model d), (key_label_encoders d),
        (key_feature_importance d), (key_is_trained d); reflexivity.
    + by apply load_model_missing.
  - intros self' log Hl.
    destruct (load_model_returns fs filename self) as (s & l & b & E & Hb).
    rewrite Hl in E. injection E as <- <- <-. by apply Hb.
Qed.

(** C10. A predictor that was never trained can be saved like any
    other: where the storage lets [save_model] write, it returns True and
    the file holds the predictor's four fields, the flag being False; for a
    new predictor these are the unfitted forest, the empty encoder dict,
    None for the importance table and False.  [load_model] of that file
    returns True and leaves a predictor whose flag is False, on which
    [predict_risk] returns "Model not trained" with confidence 0 for every
    feature mapping. *)
Theorem untrained_round_trip (self other : StudentPredictor)
    (filename : string) (fs : Storage) :
  never_trained self ->
  can_save fs filename ->
  exists fs' blob,
    save_model self filename fs = (fs', [], Ok true)
    /\ files fs' !! filename = Some (Pickled blob)
    /\ key_is_trained blob = Some false
    /\ (self = new_predictor ->
        blob = {| key_model := Some new_forest;
                  key_label_encoders := Some ∅;
                  key_feature_importance := Some None;
                  key_is_trained := Some false |})
    /\ exists restored,
         load_model fs' filename other = (restored, [], Ok true)
         /\ is_trained restored = false
         /\ forall features_dict,
              predict_risk restored features_dict
                = Ok (Str "Model not trained", 0%Q).
Proof.
  intros Hn%never_trained_flag Hc.
  destruct (save_model_can_save self filename fs Hc) as [fs' Hs].
  exists fs', (state_dict self). split; [done|].
  apply save_model_true in Hs as [Hfile _]. split; [done|].
  split; [unfold state_dict; simpl; by rewrite Hn|].
  split; [by intros ->|].
  exists self. split; [by apply load_model_state_dict|].
  split; [done|]. intros features_dict. by apply predict_risk_not_trained.
Qed.

End PredictorFacts.

(** * The predictor on concrete frames *)

Section Runs.
Import Model Baseline.

(** A run is determined by its three components. *)
Lemma run_eta {S A} (run : S * list report * result A) (r : result A) :
  snd run = r -> run = (fst (fst run), snd (fst run), r).
Proof. destruct run as [[s log] r']. simpl. by intros ->. Defined.

Lemma run_eta_log {S A} (run : S * list report * result A)
    (log : list report) (r : result A) :
  snd (fst run) = log -> snd run = r -> run = (fst (fst run), log, r).
Proof. destruct run as [[s log'] r']. simpl. by intros -> ->. Defined.

Lemma train_model_preconditions_witness :
  (len nine_rows < 10)%nat
  /\ exists self' r,
       @train_model sklearn nine_rows new_predictor = (self', [r], Ok false)
       /\ self' = new_predictor
       /\ (is_trained (@new_predictor sklearn) = false -> is_trained self' = false).
Proof.
  assert (H : (len nine_rows < 10)%nat) by (vm_compute; lia).
  split; [exact H|].
  apply (@train_model_preconditions sklearn nine_rows new_predictor).
  left. exact H.
Defined.

Lemma predict_risk_untrained_witness :
  never_trained (fst (fst (@train_model sklearn lone_high new_predictor)))
  /\ predict_risk (fst (fst (@train_model sklearn lone_high new_predictor)))
       some_marks = Ok (Str "Model not trained", 0%Q).
Proof.
  assert (H : never_trained
                (fst (fst (@train_model sklearn lone_high new_predictor)))).
  { apply (never_failed_train lone_high new_predictor _
             (snd (fst (@train_model sklearn lone_high new_predictor)))
             never_new).
    apply run_eta. vm_compute. reflexivity. }
  split; [exact H|].
  exact (predict_risk_untrained _ some_marks H).
Defined.


Lemma save_load_round_trip_witness :
  is_trained trained = true
  /\ save_model trained default_filename empty_storage
     = (saved_storage, [], Ok true)
  /\ exists P',
       load_model saved_storage default_filename new_predictor
         = (P', [], Ok true)
       /\ model P' = model trained
       /\ label_encoders P' = label_encoders trained
       /\ feature_importance P' = feature_importance trained
       /\ is_trained P' = true
       /\ forall features_dict,
            predict_risk P' features_dict = predict_risk trained features_dict.
Proof.
  assert (H1 : is_trained trained = true) by (vm_compute; reflexivity).
  assert (H2 : save_model trained default_filename empty_storage
               = (saved_storage, [], Ok true)).
  { apply run_eta_log; vm_compute; reflexivity. }
  split; [exact H1|]. split; [exact H2|].
  exact (save_load_round_trip trained new_predictor default_filename
           empty_storage saved_storage [] H1 H2).
Defined.

Lemma can_save_empty_storage : can_save empty_storage default_filename.
Proof.
  split; [right; split; [reflexivity | apply not_elem_of_empty]|].
  split; [apply not_elem_of_empty|].
  split; [discriminate|].
  discriminate.
Defined.

Lemma untrained_round_trip_witness :
  never_trained (@new_predictor sklearn)
  /\ can_save empty_storage default_filename
  /\ exists fs' blob,
       save_model new_predictor default_filename empty_storage
         = (fs', [], Ok true)
       /\ files fs' !! default_filename = Some (Pickled blob)
       /\ key_is_trained blob = Some false
       /\ (@new_predictor sklearn = new_predictor ->
           blob = {| key_model := Some new_forest;
                     key_label_encoders := Some ∅;
                     key_feature_importance := Some None;
                     key_is_trained := Some false |})
       /\ exists restored,
            load_model fs' default_filename trained = (restored, [], Ok true)
            /\ is_trained restored = false
            /\ forall features_dict,
                 predict_risk restored features_dict
                   = Ok (Str "Model not trained", 0%Q).
Proof.
  split; [exact never_new|].
  split; [exact can_save_empty_storage|].
  exact (untrained_round_trip new_predictor trained default_filename
           empty_storage never_new can_save_empty_storage).
Defined.

(** C3, the claim as stated fails.  On the ten rows with a single High,
    the label encoder is stored, the stratified split raises and
    [train_model] returns False: the untrained predictor has a new entry in
    [label_encoders].  On the trained predictor, whose encoder knows High
    and Low, the failed call on the ten rows with a single Medium leaves an
    encoder that knows Failure and Medium: the codes of the fitted forest
    are now decoded to other labels. *)
Lemma failed_training_changes_state :
  (exists self' log,
     @train_model sklearn lone_high new_predictor = (self', log, Ok false)
     /\ label_encoders self' !! "risk_level" = Some [Str "High"; Str "Low"]
     /\ self' ≠ new_predictor)
  /\ (exists log,
        train_model lone_medium trained = (after_failed_retraining, log, Ok false)
        /\ is_trained trained = true
        /\ label_encoders trained !! "risk_level"
             = Some [Str "High"; Str "Low"]
        /\ label_encoders after_failed_retraining !! "risk_level"
             = Some [Str "Failure"; Str "Medium"]
        /\ model after_failed_retraining = model trained
        /\ after_failed_retraining ≠ trained).
Proof.
  split.
  - exists (fst (fst (@train_model sklearn lone_high new_predictor))),
           (snd (fst (@train_model sklearn lone_high new_predictor))).
    split; [apply run_eta; vm_compute; reflexivity|].
    split; [vm_compute; reflexivity|].
    intros E. apply (f_equal (fun p => label_encoders p !! "risk_level")) in E.
    vm_compute in E. discriminate E.
  - exists (snd (fst (train_model lone_medium trained))).
    split; [apply run_eta; vm_compute; reflexivity|].
    split; [vm_compute; reflexivity|].
    split; [vm_compute; reflexivity|].
    split; [vm_compute; reflexivity|].
    split; [vm_compute; reflexivity|].
    intros E. apply (f_equal (fun p => label_encoders p !! "risk_level")) in E.
    vm_compute in E. discriminate E.
Qed.

(** C4, the claim as stated fails.  The file holds a dict with a fitted
    forest under ['model'] and no other key: [load_model] stores the forest,
    then the read of ['label_encoders'] raises and it returns False, with
    the predictor's [model] replaced. *)
Lemma failed_restore_changes_state :
  exists self' log,
    @load_model sklearn partial_storage default_filename new_predictor
      = (self', log, Ok false)
    /\ model self' = fitted_forest
    /\ self' ≠ new_predictor.
Proof.
  exists (fst (fst (@load_model sklearn partial_storage default_filename
                      new_predictor))),
         (snd (fst (@load_model sklearn partial_storage default_filename
                      new_predictor))).
  split; [apply run_eta; vm_compute; reflexivity|].
  split; [vm_compute; reflexivity|].
  intros E. apply (f_equal model) in E. vm_compute in E. discriminate E.
Qed.

End Runs.

(** * Further properties of the derived columns *)

Section ScoreFacts.
Import Utils.
Local Open Scope Q_scope.








End ScoreFacts.

(** * Further properties of the predictor *)

Section StorageFacts.
Import Model Notions.
Context `{sk : Sklearn}.

(** Every run of [save_model]: either the storage lets it write, and the
    file then holds the four fields; or it reports and returns False, the
    storage being as before but for the directory it may have made. *)
Lemma save_model_cases (self : StudentPredictor) filename fs :
  (can_save fs filename
   /\ save_model self filename fs =
        ({| files := <[filename := Pickled (state_dict self)]>
                       (with_model_directory fs);
            denied := denied fs |}, [], Ok true))
  \/ (~ can_save fs filename
      /\ exists fs' e,
           save_model self filename fs
             = (fs', [st_error (ErrorSaving e)], Ok false)
           /\ denied fs' = denied fs
           /\ (files fs' = files fs \/ files fs' = with_model_directory fs)).
Proof.
  unfold save_model, try_except, makedirs, joblib_dump, with_model_directory.
  unfold mbind, method_bind, mret, method_ret, can_save.
  destruct (files fs !! "model") as [[| |]|] eqn:Hm.
  - (* the directory exists *)
    destruct (decide (filename ∈ denied fs)) as [Hd|Hd].
    { right. split; [tauto|]. eexists _, _. split; [reflexivity|]. auto. }
    destruct (files fs !! filename) as [[| |]|] eqn:Hf.
    + right. split; [intros (_ & _ & _ & H); by apply H|].
      eexists _, _. split; [reflexivity|]. auto.
    + left. split; [|reflexivity].
      split; [by left|]. split; [done|]. split; [|done].
      intros ->. congruence.
    + left. split; [|reflexivity].
      split; [by left|]. split; [done|]. split; [|done].
      intros ->. congruence.
    + left. split; [|reflexivity].
      split; [by left|]. split; [done|]. split; [|done].
      intros ->. congruence.
  - right. split; [intros ([H|[H _]] & _); congruence|].
    eexists _, _. split; [reflexivity|]. auto.
  - right. split; [intros ([H|[H _]] & _); congruence|].
    eexists _, _. split; [reflexivity|]. auto.
  - (* the directory is to be made *)
    destruct (decide ("model" ∈ denied fs)) as [Hd|Hd].
    { right. split; [intros ([H|[_ H]] & _); [congruence | done]|].
      eexists _, _. split; [reflexivity|]. auto. }
    simpl.
    destruct (decide (filename ∈ denied fs)) as [Hd'|Hd'].
    { right. split; [tauto|]. eexists _, _. split; [reflexivity|]. auto. }
    destruct (decide (filename = "model")) as [->|Hne].
    { rewrite lookup_insert_eq. right. split; [tauto|].
      eexists _, _. split; [reflexivity|]. auto. }
    rewrite lookup_insert_ne by done.
    destruct (files fs !! filename) as [[| |]|] eqn:Hf.
    + right. split; [intros (_ & _ & _ & H); by apply H|].
      eexists _, _. split; [reflexivity|]. auto.
    + left. split; [|reflexivity]. split; [by right|]. done.
    + left. split; [|reflexivity]. split; [by right|]. done.
    + left. split; [|reflexivity]. split; [by right|]. done.
Qed.

Lemma with_model_directory_other (fs : Storage) path :
  path ≠ "model" -> with_model_directory fs !! path = files fs !! path.
Proof.
  intros H. unfold with_model_directory.
  destruct (files fs !! "model"); [done|]. by rewrite lookup_insert_ne.
Qed.

Lemma with_model_directory_model (fs : Storage) :
  with_model_directory fs !! "model" = files fs !! "model"
  \/ (files fs !! "model" = None
      /\ with_model_directory fs !! "model" = Some Directory).
Proof.
  unfold with_model_directory.
  destruct (files fs !! "model") eqn:E; [by left|].
  right. by rewrite lookup_insert_eq.
Qed.

Lemma can_save_after_save (self : StudentPredictor) filename fs :
  can_save fs filename ->
  can_save {| files := <[filename := Pickled (state_dict self)]>
                         (with_model_directory fs);
              denied := denied fs |} filename.
Proof.
  intros (Hm & Hd & Hne & Hf). unfold can_save. simpl.
  rewrite lookup_insert_eq, lookup_insert_ne by done.
  split; [|done]. left.
  destruct Hm as [Hm|[Hm _]]; unfold with_model_directory; rewrite Hm;
    [done | by rewrite lookup_insert_eq].
Qed.

(** X4. [save_model] returns True exactly where the storage lets it
    write (the model directory exists or can be made, the file may be
    written and is not a directory); the file then holds the predictor's
    four fields and nothing is reported.  Anywhere else it returns False
    with one "Error saving model" report; it never raises. *)
Theorem save_model_succeeds_iff (self : StudentPredictor) filename fs :
  exists fs' log b,
    save_model self filename fs = (fs', log, Ok b)
    /\ (b = true <-> can_save fs filename)
    /\ (b = true ->
        log = [] /\ files fs' !! filename = Some (Pickled (state_dict self)))
    /\ (b = false -> exists e, log = [st_error (ErrorSaving e)]).
Proof.
  destruct (save_model_cases self filename fs)
    as [[Hc ->] | (Hc & fs' & e & -> & _)].
  - eexists _, _, _. split; [reflexivity|].
    split; [done|]. split; [|done].
    intros _. split; [done|]. simpl. by rewrite lookup_insert_eq.
  - eexists _, _, _. split; [reflexivity|].
    split; [split; [done | tauto]|]. split; [done|]. by exists e.
Qed.

(** X5. [save_model] touches nothing but its own file and the model
    directory: whatever it returns, the unwritable paths are as before,
    every other path names what it named before, and the model directory
    is as before or has been created; when it returns False even its own
    file is as before. *)
Theorem save_model_frame (self : StudentPredictor) filename fs fs' log r :
  save_model self filename fs = (fs', log, r) ->
  denied fs' = denied fs
  /\ (forall path, path ≠ filename -> path ≠ "model" ->
      files fs' !! path = files fs !! path)
  /\ (filename ≠ "model" ->
      files fs' !! "model" = files fs !! "model"
      \/ (files fs !! "model" = None /\ files fs' !! "model" = Some Directory))
  /\ (r = Ok false -> filename ≠ "model" ->
      files fs' !! filename = files fs !! filename).
Proof.
  destruct (save_model_cases self filename fs)
    as [[Hc ->] | (Hc & fs1 & e & -> & Hd & Hf)].
  - intros [= <- <- <-]. simpl. split; [done|]. split; [|split].
    + intros path H1 H2.
      by rewrite lookup_insert_ne, with_model_directory_other.
    + intros Hne. rewrite lookup_insert_ne by done.
      apply with_model_directory_model.
    + done.
  - intros [= <- <- <-]. split; [done|].
    destruct Hf as [-> | ->].
    + split; [done|]. split; [by left | done].
    + split; [|split].
      * intros path _ H2. by apply with_model_directory_other.
      * intros _. apply with_model_directory_model.
      * intros _ Hne. by apply with_model_directory_other.
Qed.

(** X6. The model file is overwritten, not versioned: once a save has
    returned True, a later save of any predictor to the same file returns
    True as well, and [load_model] then restores the predictor saved last. *)
Theorem last_save_wins (first second other : StudentPredictor)
    filename fs fs1 log1 :
  save_model first filename fs = (fs1, log1, Ok true) ->
  exists fs2,
    save_model second filename fs1 = (fs2, [], Ok true)
    /\ load_model fs2 filename other = (second, [], Ok true).
Proof.
  intros H1.
  destruct (save_model_cases first filename fs)
    as [[Hc E] | (_ & fs' & e & E & _)]; rewrite E in H1; [|done].
  injection H1 as <- _.
  pose proof (can_save_after_save first filename fs Hc) as Hc1.
  destruct (save_model_cases second filename
              {| files := <[filename := Pickled (state_dict first)]>
                            (with_model_directory fs);
                 denied := denied fs |})
    as [[_ E2] | (Hn & _)]; [|done].
  eexists. split; [exact E2|].
  apply load_model_state_dict. simpl. by rewrite lookup_insert_eq.
Qed.

(** X7. A [load_model] that returns True does not depend on what the
    predictor was: on any other predictor it returns True with the same
    result and without a report, and loading again changes nothing. *)
Theorem load_model_forgets (fs : Storage) filename
    (self self' other : StudentPredictor) log :
  load_model fs filename self = (self', log, Ok true) ->
  log = []
  /\ load_model fs filename other = (self', [], Ok true)
  /\ load_model fs filename self' = (self', [], Ok true).
Proof.
  intros H.
  destruct (files fs !! filename) as [[| |d]|] eqn:Hf.
  - destruct (load_model_unreadable fs filename self) as [e E]; [by right|].
    rewrite E in H. done.
  - destruct (load_model_unreadable fs filename self) as [e E]; [by left|].
    rewrite E in H. done.
  - rewrite (load_model_pickled _ _ _ _ Hf) in H.
    rewrite !(load_model_pickled _ _ _ _ Hf).
    destruct (key_model d), (key_label_encoders d),
      (key_feature_importance d), (key_is_trained d); try done.
    by injection H as <- <-.
  - rewrite (load_model_missing _ _ _ Hf) in H. done.
Qed.

End StorageFacts.

Section PredictFacts.
Import Model Notions.
Context `{sk : Sklearn}.

Lemma features_array_insert_zero (d : gmap string cell) col cols :
  d !! col = None ->
  features_array (<[col := Num 0]> d) cols = features_array d cols.
Proof.
  intros H. unfold features_array. apply map_ext. intros c.
  destruct (decide (col = c)) as [<-|Hne].
  - by rewrite lookup_insert_eq, H.
  - by rewrite lookup_insert_ne.
Qed.

(** X8. Leaving a mark out of the mapping is the same as entering 0 for
    it: [predict_risk] returns the same label and confidence. *)
Theorem predict_risk_missing_is_zero (self : StudentPredictor)
    (features_dict : gmap string cell) (col : string) :
  features_dict !! col = None ->
  predict_risk self (<[col := Num 0]> features_dict)
    = predict_risk self features_dict.
Proof.
  intros H. unfold predict_risk, predict_body.
  destruct (is_trained self); [|done]. simpl.
  destruct (feature_importance self) as [frame|]; [|done]. simpl.
  by rewrite features_array_insert_zero.
Qed.

(** X9. A trained flag alone does not make a prediction: when the
    importance table is None the call returns the label "Prediction error:
    'NoneType' object is not subscriptable" with confidence 0, and when the
    encoder dict has no ['risk_level'] entry it returns some "Prediction
    error: ..." label with confidence 0, never a risk label. *)
Theorem predict_risk_incomplete_state (self : StudentPredictor)
    (features_dict : gmap string cell) :
  is_trained self = true ->
  (feature_importance self = None ->
   predict_risk self features_dict
     = Ok (Str "Prediction error: 'NoneType' object is not subscriptable",
           0%Q))
  /\ (label_encoders self !! "risk_level" = None ->
      exists e, predict_risk self features_dict
                  = Ok (Str ("Prediction error: " ++ str e), 0%Q)).
Proof.
  intros Ht. unfold predict_risk. rewrite Ht. simpl. split.
  - intros Hf. unfold predict_body. by rewrite Hf.
  - intros Hle.
    destruct (predict_body self features_dict) as [[label c]|e] eqn:Hb;
      [|by exists e].
    apply predict_body_ok in Hb as (? & ? & ? & ? & ? & le & ? & ? & _ & _ & _
                                    & Hsome & _).
    congruence.
Qed.

End PredictFacts.

Section TrainFacts.
Import Model Notions.
Context `{sk : Sklearn}.

Lemma available_features_nodup (data : DataFrame) :
  NoDup (available_features data).
Proof.
  unfold available_features. apply NoDup_ListNoDup, List.NoDup_filter.
  apply NoDup_ListNoDup. unfold feature_columns.
  repeat (apply NoDup_cons_2;
          [rewrite ?elem_of_cons, elem_of_nil; intros H;
           repeat (destruct H as [H|H]; [discriminate H|]); exact H|]).
  apply NoDup_nil_2.
Qed.

Lemma available_features_length (data : DataFrame) :
  length (available_features data) <= 5.
Proof.
  unfold available_features.
  etrans; [apply List.filter_length_le|]. done.
Qed.

(** X10. When [train_model] returns True the frame had passed the four
    checks and the predictor is complete: the flag is set, an encoder is
    stored under ['risk_level'], and the importance table has one row for
    each mark column of the frame, each once, between 3 and 5 of them, by
    decreasing importance.  It has reported the accuracy and then the three
    most important features. *)
Theorem train_model_success (data : DataFrame) (self self' : StudentPredictor)
    (log : list report) :
  train_model data self = (self', log, Ok true) ->
  ~ early_exit data
  /\ is_trained self' = true
  /\ exists le frame accuracy,
       label_encoders self' !! "risk_level" = Some le
       /\ feature_importance self' = Some frame
       /\ map fst frame ≡ₚ available_features data
       /\ NoDup (map fst frame)
       /\ 3 <= length frame <= 5
       /\ Sorted by_importance frame
       /\ length (take 3 (map fst frame)) = 3
       /\ log = [st_success (TrainedSuccessfully accuracy);
                 st_info (TopFeatures (take 3 (map fst frame)))].
Proof.
  intros H. destruct (passes_checks data) eqn:Hp.
  - apply passes_checks_true in Hp as Hne. split; [done|].
    pose proof (train_body_late data self Hp) as Hlate.
    unfold train_model in H.
    inversion Hlate as [e Hf Hb | le codes s1 e Hf H1 H2 H3 Hb
                       | le codes s1 acc imps Hf H1 H2 H3 H4 H5 Hb].
    + rewrite (try_except_raise _ _ _ _ _ _ (eq_sym Hb)) in H. done.
    + rewrite (try_except_raise _ _ _ _ _ _ (eq_sym Hb)) in H. done.
    + rewrite (try_except_ok _ _ _ _ _ _ (eq_sym Hb)) in H.
      injection H as <- <-. split; [done|].
      assert (Hperm : map fst (sort_values_desc
                                 (zip (available_features data) imps))
                      ≡ₚ available_features data).
      { rewrite (map_fst_perm _ _ (sort_values_desc_perm _)).
        by rewrite zip_features. }
      assert (Hlen : length (sort_values_desc
                               (zip (available_features data) imps))
                     = length (available_features data)).
      { rewrite <- (length_map fst). by rewrite Hperm. }
      assert (H3le : 3 <= length (available_features data)).
      { unfold early_exit in Hne. lia. }
      exists le, (sort_values_desc (zip (available_features data) imps)), acc.
      split; [rewrite H5; by rewrite lookup_insert_eq|].
      split; [done|]. split; [done|].
      split; [rewrite Hperm; apply available_features_nodup|].
      split; [rewrite Hlen; split;
              [done | apply available_features_length]|].
      split; [apply sort_values_desc_sorted|].
      split; [|done].
      rewrite length_take, length_map, Hlen. lia.
  - apply passes_checks_false in Hp.
    destruct (train_model_early data self Hp) as [r Hr].
    rewrite Hr in H. done.
Qed.

Lemma empty_or_short (data : DataFrame) :
  empty data || (len data <? 10)%nat = true
  <-> len data < 10 \/ columns data = [].
Proof.
  rewrite orb_true_iff, Nat.ltb_lt. unfold empty, len.
  destruct (columns data) as [|c cs], (rows data) as [|r rs]; simpl;
    split; intros [H|H]; auto; try discriminate H; try lia.
Qed.

Lemma train_body_reports (data : DataFrame) (self : StudentPredictor) :
  passes_checks data = false ->
  train_body data self =
    (self,
     [if empty data || (len data <? 10)%nat then st_warning NotEnoughData
      else if (length (available_features data) <? 3)%nat
           then st_error (NeedThreeColumns (available_features data))
      else if negb (has_column data "risk_level")
           then st_error RiskLevelNotFound
      else st_warning NotEnoughComplete],
     Ok false).
Proof.
  unfold passes_checks, train_body. intros H.
  destruct (empty data || (len data <? 10)%nat) eqn:E1; [done|].
  destruct (length (available_features data) <? 3)%nat eqn:E2; [done|].
  destruct (has_column data "risk_level") eqn:E3; [|done].
  simpl in H. rewrite cleaned_X_length. rewrite negb_false_iff in H.
  by rewrite H.
Qed.

(** X11. A failing [train_model] reports exactly once, and the report
    names the first check that failed, in the order of the code: too few
    rows (or an empty frame), then too few mark columns, then no
    [risk_level] column, then too few complete rows; past the four checks
    the only failure is an exception, reported as "Error training model". *)
Theorem failed_training_report (data : DataFrame)
    (self self' : StudentPredictor) (log : list report) :
  train_model data self = (self', log, Ok false) ->
  exists r,
    log = [r]
    /\ ((len data < 10 \/ columns data = []) ->
        r = st_warning NotEnoughData)
    /\ (10 <= len data -> columns data <> [] ->
        length (available_features data) < 3 ->
        r = st_error (NeedThreeColumns (available_features data)))
    /\ (10 <= len data -> 3 <= length (available_features data) ->
        "risk_level" ∉ columns data ->
        r = st_error RiskLevelNotFound)
    /\ (10 <= len data -> 3 <= length (available_features data) ->
        "risk_level" ∈ columns data ->
        length (usable_rows data) < 10 ->
        r = st_warning NotEnoughComplete)
    /\ (~ early_exit data -> exists e, r = st_error (ErrorTraining e)).
Proof.
  intros H. destruct (passes_checks data) eqn:Hp.
  - apply passes_checks_true in Hp as Hne.
    destruct (train_model_late data self Hne)
      as [(e & _ & Hr) | [(le & codes & s1 & e & _ & Hr & _)
         | (le & codes & s1 & log' & imps & _ & Hr & _)]];
      rewrite Hr in H; try done; injection H as <- <-;
      (eexists; split; [reflexivity|]);
      unfold early_exit in Hne.
    + split; [intros [?|Hc]; [lia|]|].
      { exfalso. apply Hne. right. left.
        unfold available_features, has_column. rewrite Hc. simpl. lia. }
      split; [intros; lia|]. split; [intros; tauto|].
      split; [intros; lia|]. intros _. by exists e.
    + split; [intros [?|Hc]; [lia|]|].
      { exfalso. apply Hne. right. left.
        unfold available_features, has_column. rewrite Hc. simpl. lia. }
      split; [intros; lia|]. split; [intros; tauto|].
      split; [intros; lia|]. intros _. by exists e.
  - apply passes_checks_false in Hp as He.
    pose proof (train_body_reports data self Hp) as Hb.
    unfold train_model in H.
    rewrite (try_except_ok _ _ _ _ _ _ Hb) in H. injection H as <- <-.
    eexists. split; [reflexivity|].
    destruct (empty data || (len data <? 10)%nat) eqn:E1;
      pose proof (empty_or_short data) as Hempty; rewrite E1 in Hempty.
    { pose proof (proj1 Hempty eq_refl) as Hor. split; [done|].
      split; [intros ? ? ?; destruct Hor; [lia | done]|].
      split; [intros ? ? ?; destruct Hor as [?|Hc]; [lia|]|].
      { exfalso. revert H0. unfold available_features, has_column.
        rewrite Hc. simpl. lia. }
      split; [intros ? ? ? ?; destruct Hor as [?|Hc]; [lia|]|].
      { exfalso. revert H0. unfold available_features, has_column.
        rewrite Hc. simpl. lia. }
      intros Hn. done. }
    assert (Hno : ~ (len data < 10 \/ columns data = [])).
    { intros Hx. apply Hempty in Hx. discriminate Hx. }
    split; [intros Hor; done|].
    destruct (length (available_features data) <? 3)%nat eqn:E2.
    { apply Nat.ltb_lt in E2. split; [done|].
      split; [intros; lia|]. split; [intros; lia|]. intros Hn. done. }
    apply Nat.ltb_ge in E2. split; [intros; lia|].
    destruct (has_column data "risk_level") eqn:E3; simpl.
    + apply has_column_spec in E3. split; [intros; done|].
      split; [done|]. intros Hn. done.
    + split; [done|].
      split; [intros ? ? Hin; apply has_column_spec in Hin; congruence|].
      intros Hn. done.
Qed.

End TrainFacts.

(** * Properties of the machine-learning tab *)

Section TabFacts.
Import Model Notions Analytics.
Context `{sk : Sklearn}.

Lemma train_model_flag (data : DataFrame) (self self' : StudentPredictor) log b :
  train_model data self = (self', log, Ok b) ->
  is_trained self' = if b then true else is_trained self.
Proof.
  intros H. destruct b.
  - destruct (passes_checks data) eqn:Hp.
    + apply passes_checks_true in Hp.
      destruct (train_model_late data self Hp)
        as [(e & _ & Hr) | [(le & codes & s1 & e & _ & Hr & _)
           | (le & codes & s1 & log' & imps & _ & Hr & Ht & _)]];
        rewrite Hr in H; try done. by injection H as <- _.
    + apply passes_checks_false in Hp.
      destruct (train_model_early data self Hp) as [r Hr].
      rewrite Hr in H. done.
  - destruct (train_model_returns data self) as (s & l & b & E & Hb).
    rewrite H in E. injection E as <- <- <-. by apply Hb.
Qed.

Lemma train_model_total (data : DataFrame) (self : StudentPredictor) :
  exists self' log b, train_model data self = (self', log, Ok b).
Proof.
  destruct (train_model_returns data self) as (s & l & b & E & _). eauto.
Qed.

Lemma save_model_returns (self : StudentPredictor) filename fs :
  exists fs' log b,
    save_model self filename fs = (fs', log, Ok b)
    /\ denied fs' = denied fs
    /\ (forall path, path ≠ filename -> path ≠ "model" ->
        files fs' !! path = files fs !! path).
Proof.
  destruct (save_model_cases self filename fs)
    as [[Hc ->] | (Hc & fs1 & e & -> & Hd & Hf)].
  - eexists _, _, _. split; [reflexivity|]. split; [done|].
    intros path H1 H2. simpl.
    by rewrite lookup_insert_ne, with_model_directory_other.
  - eexists _, _, _. split; [reflexivity|]. split; [done|].
    intros path H1 H2. destruct Hf as [-> | ->]; [done|].
    by apply with_model_directory_other.
Qed.

(** X12. The "Train ML Model" button never raises and writes only after
    a successful training: the unwritable paths stay, every path other than
    the model file and the model directory names what it named, a frame
    that fails a check leaves both the predictor and the storage as they
    were, and whenever the predictor is still untrained afterwards the
    storage is untouched, so a model saved earlier survives. *)
Theorem train_button_writes_on_success (data : DataFrame)
    (predictor : StudentPredictor) (fs : Storage) :
  exists predictor' fs' log,
    train_button data predictor fs = (predictor', fs', log, Ok tt)
    /\ denied fs' = denied fs
    /\ (forall path, path ≠ default_filename -> path ≠ "model" ->
        files fs' !! path = files fs !! path)
    /\ (early_exit data -> predictor' = predictor /\ fs' = fs)
    /\ (is_trained predictor' = false -> fs' = fs).
Proof.
  unfold train_button.
  destruct (train_model_total data predictor) as (p' & log & b & Ht).
  rewrite Ht. pose proof (train_model_flag _ _ _ _ _ Ht) as Hflag.
  destruct b.
  - destruct (save_model_returns p' default_filename fs)
      as (fs' & log' & b' & Hs & Hd & Hf).
    rewrite Hs. eexists _, _, _. split; [reflexivity|].
    split; [done|]. split; [done|]. split.
    + intros He. destruct (train_model_early data predictor He) as [r Hr].
      rewrite Hr in Ht. done.
    + intros Hn. rewrite Hflag in Hn. done.
  - eexists _, _, _. split; [reflexivity|].
    split; [done|]. split; [done|]. split; [|done].
    intros He. destruct (train_model_early data predictor He) as [r Hr].
    rewrite Hr in Ht. by injection Ht as <- _.
Qed.

(** X13. Training through the button and loading through the other
    button give the same predictor: when the button has turned an untrained
    predictor into a trained one and the storage lets the model file be
    written, "Load Saved Model" on any predictor returns the trained
    predictor and announces "Model loaded successfully". *)
Theorem train_button_then_load_button (data : DataFrame)
    (predictor predictor' other : StudentPredictor) (fs fs' : Storage)
    (log : list notice) :
  train_button data predictor fs = (predictor', fs', log, Ok tt) ->
  is_trained predictor = false ->
  is_trained predictor' = true ->
  can_save fs default_filename ->
  files fs' !! default_filename = Some (Pickled (state_dict predictor'))
  /\ load_button other fs' = (predictor', [model_loaded], Ok tt).
Proof.
  unfold train_button. intros H Hu Ht Hc.
  destruct (train_model_total data predictor) as (p' & l & b & Htm).
  rewrite Htm in H. pose proof (train_model_flag _ _ _ _ _ Htm) as Hflag.
  destruct b.
  - destruct (save_model_cases p' default_filename fs)
      as [[_ Hs] | (Hn & _)]; [|done].
    rewrite Hs in H. injection H as <- <- _.
    assert (Hfile : files
              {| files := <[default_filename := Pickled (state_dict p')]>
                            (with_model_directory fs);
                 denied := denied fs |} !! default_filename
            = Some (Pickled (state_dict p'))).
    { simpl. by rewrite lookup_insert_eq. }
    split; [exact Hfile|].
    unfold load_button.
    by rewrite (load_model_state_dict _ _ p' other Hfile).
  - injection H as <- _ _. congruence.
Qed.





End TabFacts.

(** * Properties of the column operations *)

Section FrameFacts.
Import Utils Model Frames Notions.

Lemma position_some (c : string) (cols : list string) (i : nat) :
  position c cols = Some i -> cols !! i = Some c.
Proof.
  revert i. induction cols as [|c' cols IH]; intros i; simpl; [done|].
  case_decide as E; [by intros [= <-]; subst|].
  destruct (position c cols) as [j|]; [|done].
  intros [= <-]. by apply IH.
Qed.

Lemma position_none (c : string) (cols : list string) :
  position c cols = None <-> c ∉ cols.
Proof.
  induction cols as [|c' cols IH]; simpl.
  - split; [intros _; apply not_elem_of_nil | done].
  - rewrite not_elem_of_cons. case_decide as E.
    + split; [done | intros [H _]; by subst].
    + destruct (position c cols); simpl.
      * split; [done|]. intros [_ H]. by apply IH in H.
      * split; [|done]. intros _. split; [done | by apply IH].
Qed.

Lemma position_is_some (c : string) (cols : list string) :
  c ∈ cols -> exists i, position c cols = Some i.
Proof.
  intros H. destruct (position c cols) as [i|] eqn:E; [by exists i|].
  by apply position_none in E.
Qed.

Lemma position_app (c : string) (cols more : list string) (i : nat) :
  position c cols = Some i -> position c (cols ++ more) = Some i.
Proof.
  revert i. induction cols as [|c' cols IH]; intros i; simpl; [done|].
  case_decide; [done|].
  destruct (position c cols) as [j|]; [|done].
  intros [= <-]. by rewrite (IH j).
Qed.

Lemma position_app_new (c col : string) (cols : list string) :
  position c cols = None ->
  position c (cols ++ [col]) = if decide (col = c) then Some (length cols) else None.
Proof.
  induction cols as [|c' cols IH]; simpl.
  - intros _. destruct (decide (col = c)); done.
  - destruct (decide (c' = c)); [done|].
    destruct (position c cols) eqn:E; [done|]. intros _.
    rewrite IH by done. destruct (decide (col = c)); done.
Qed.

Lemma position_inj (a b : string) (cols : list string) (i : nat) :
  position a cols = Some i -> position b cols = Some i -> a = b.
Proof.
  intros Ha%position_some Hb%position_some. congruence.
Qed.

Lemma has_column_position (data : DataFrame) (c : string) :
  has_column data c = true <-> exists i, position c (columns data) = Some i.
Proof.
  rewrite has_column_spec. split.
  - apply position_is_some.
  - intros [i Hi]. destruct (decide (c ∈ columns data)) as [|Hn]; [done|].
    apply position_none in Hn. congruence.
Qed.

Lemma has_column_false (data : DataFrame) (c : string) :
  has_column data c = false <-> position c (columns data) = None.
Proof.
  rewrite <- not_true_iff_false, has_column_spec. symmetry.
  apply position_none.
Qed.

(** A cell of an updated row. *)
Lemma cell_at_updated_row (data : DataFrame) (col c : string)
    (values : list cell) (row : list cell) (x : cell) :
  length row = length (columns data) ->
  cell_at (set_column data col values) (updated_row data col row x) c
    = if decide (c = col) then x else cell_at data row c.
Proof.
  intros Hlen. unfold cell_at, set_column, updated_row.
  destruct (position col (columns data)) as [i|] eqn:Hp; simpl.
  - pose proof (position_some _ _ _ Hp) as Hi.
    apply lookup_lt_Some in Hi. case_decide as E.
    + subst c. rewrite Hp. rewrite list_lookup_insert_eq by lia. done.
    + destruct (position c (columns data)) as [j|] eqn:Hc; [|done].
      rewrite list_lookup_insert_ne; [done|].
      intros <-. apply E. by apply (position_inj _ _ _ _ Hc Hp).
  - destruct (position c (columns data)) as [j|] eqn:Hc.
    + rewrite (position_app _ _ _ _ Hc).
      case_decide as E; [subst c; congruence|].
      pose proof (position_some _ _ _ Hc) as Hj.
      apply lookup_lt_Some in Hj.
      by rewrite lookup_app_l by lia.
    + rewrite (position_app_new _ _ _ Hc).
      case_decide as E; case_decide as E'; subst; try done.
      rewrite <- Hlen. by rewrite list_lookup_middle.
Qed.

Lemma set_column_rows (data : DataFrame) (col : string) (values : list cell) :
  rows (set_column data col values)
    = zip_with (updated_row data col) (rows data) values.
Proof.
  unfold set_column, updated_row.
  by destruct (position col (columns data)).
Qed.

Lemma set_column_columns (data : DataFrame) (col : string) (values : list cell) :
  columns (set_column data col values)
    = if has_column data col then columns data else (columns data ++ [col])%list.
Proof.
  unfold set_column. destruct (position col (columns data)) as [i|] eqn:Hp.
  - assert (H : has_column data col = true)
      by (apply has_column_position; eauto).
    by rewrite H.
  - apply has_column_false in Hp. by rewrite Hp.
Qed.

Lemma has_column_set (data : DataFrame) (col c : string) (values : list cell) :
  has_column (set_column data col values) c
    = has_column data c || bool_decide (c = col).
Proof.
  apply eq_true_iff_eq. rewrite orb_true_iff, !has_column_spec.
  rewrite bool_decide_eq_true, set_column_columns.
  destruct (has_column data col) eqn:Hc.
  - apply has_column_spec in Hc. split; [auto|]. intros [?| ->]; done.
  - rewrite elem_of_app, list_elem_of_singleton. done.
Qed.

Lemma len_set_column (data : DataFrame) (col : string) (values : list cell) :
  length values = len data -> len (set_column data col values) = len data.
Proof.
  intros H. unfold len. rewrite set_column_rows, length_zip_with.
  unfold len in H. lia.
Qed.

Lemma column_updated_rows (data : DataFrame) (col c : string)
    (any values : list cell) (rws : list (list cell)) :
  Forall (fun row => length row = length (columns data)) rws ->
  length values = length rws ->
  map (fun row => cell_at (set_column data col any) row c)
      (zip_with (updated_row data col) rws values)
    = if decide (c = col) then values
      else map (fun row => cell_at data row c) rws.
Proof.
  intros Hwf. revert values.
  induction Hwf as [|row rws Hrow _ IH]; intros [|x values] Hlen;
    simpl in *; try done.
  - by destruct (decide (c = col)).
  - rewrite (cell_at_updated_row data col c any row x Hrow).
    rewrite (IH values) by lia. by destruct (decide (c = col)).
Qed.

(** The column just set holds the values; the others are as before. *)
Lemma column_set_column (data : DataFrame) (col c : string) (values : list cell) :
  well_formed data ->
  length values = len data ->
  column (set_column data col values) c
    = if decide (c = col) then values else column data c.
Proof.
  intros [_ Hwf] Hlen. unfold column. rewrite set_column_rows.
  by apply column_updated_rows.
Qed.

Lemma well_formed_set_column (data : DataFrame) (col : string)
    (values : list cell) :
  well_formed data -> well_formed (set_column data col values).
Proof.
  intros [Hnd Hwf]. split.
  - rewrite set_column_columns. destruct (has_column data col) eqn:Hc; [done|].
    apply NoDup_app. split; [done|]. split; [|apply NoDup_singleton].
    intros x Hx ->%list_elem_of_singleton.
    apply has_column_spec in Hx. congruence.
  - rewrite set_column_rows. unfold set_column, updated_row.
    destruct (position col (columns data)) as [i|]; simpl.
    + revert values. induction Hwf as [|row rws Hrow _ IH];
        intros [|x values]; simpl; try done.
      constructor; [by rewrite length_insert | apply IH].
    + revert values. induction Hwf as [|row rws Hrow _ IH];
        intros [|x values]; simpl; try done.
      constructor; [rewrite !length_app; simpl; lia | apply IH].
Qed.

(** ** Columns computed cell by cell *)

Lemma collect_ok {A} (l : list (result A)) (xs : list A) :
  collect l = Ok xs <-> Forall2 (fun r x => r = Ok x) l xs.
Proof.
  revert xs. induction l as [|r l IH]; intros xs; simpl.
  - split; [intros [= <-]; constructor | by inversion 1].
  - unfold mbind, result_bind. destruct r as [x|e].
    + destruct (collect l) as [ys|e] eqn:E.
      * split.
        -- intros [= <-]. constructor; [done | by apply IH].
        -- inversion 1 as [|? ? ? ? Hx Hl]; subst. injection Hx as <-.
           apply IH in Hl. by injection Hl as <-.
      * split; [done|]. inversion 1 as [|? ? ? ? Hx Hl]; subst.
        apply IH in Hl. done.
    + split; [done|]. by inversion 1.
Qed.

Lemma series_map_ok (f : cell -> result cell) (s xs : list cell) :
  series_map f s = Ok xs <-> Forall2 (fun a x => f a = Ok x) s xs.
Proof.
  unfold series_map. rewrite collect_ok. split.
  - revert xs. induction s as [|a s IH]; intros xs; simpl;
      inversion 1; subst; constructor; auto.
  - induction 1; simpl; constructor; auto.
Qed.

Lemma series_map_length (f : cell -> result cell) (s xs : list cell) :
  series_map f s = Ok xs -> length xs = length s.
Proof. intros H%series_map_ok. symmetry. by eapply Forall2_length. Qed.


Lemma column_length (data : DataFrame) (c : string) :
  length (column data c) = len data.
Proof. unfold column, len. apply length_map. Qed.








End FrameFacts.

(** * Properties of the data transformation buttons *)

Section FilesFacts.
Import Utils Model Frames Notions Files.
Variable save_data : DataFrame -> bool.

Lemma risk_columns_set (data : DataFrame) (levels scores : list cell) :
  well_formed data ->
  length levels = len data ->
  length scores = len data ->
  let data' := set_column (set_column data "risk_level" levels)
                 "risk_score" scores in
  well_formed data'
  /\ len data' = len data
  /\ column data' "risk_level" = levels
  /\ column data' "risk_score" = scores
  /\ (forall c, c ≠ "risk_level" -> c ≠ "risk_score" ->
      column data' c = column data c).
Proof.
  intros Hwf Hl Hs. simpl.
  pose proof (well_formed_set_column data "risk_level" levels Hwf) as Hwf1.
  pose proof (len_set_column data "risk_level" levels Hl) as Hlen1.
  split; [by apply well_formed_set_column|].
  split; [rewrite len_set_column; [done | by rewrite Hlen1]|].
  split.
  { rewrite column_set_column by (done || by rewrite Hlen1).
    rewrite decide_False by done.
    rewrite column_set_column by done. by rewrite decide_True. }
  split.
  { rewrite column_set_column by (done || by rewrite Hlen1).
    by rewrite decide_True. }
  intros c H1 H2.
  rewrite column_set_column by (done || by rewrite Hlen1).
  rewrite decide_False by done.
  rewrite column_set_column by done. by rewrite decide_False.
Qed.

Lemma risk_levels_length (data : DataFrame) (levels : list cell) :
  risk_levels data = Ok levels -> length levels = len data.
Proof.
  intros H%series_map_length. by rewrite H, column_length.
Qed.

Lemma risk_scores_length (data : DataFrame) (scores : list cell) :
  risk_scores data = Ok scores -> length scores = len data.
Proof.
  unfold risk_scores, mbind, result_bind.
  destruct (series_map (truediv 60) _) as [qs|] eqn:E; [|done].
  intros H%series_map_length. apply series_map_length in E.
  by rewrite H, E, column_length.
Qed.

Lemma risk_scores_same_total (data data' : DataFrame) :
  column data' "total_internal_marks" = column data "total_internal_marks" ->
  risk_scores data' = risk_scores data.
Proof. unfold risk_scores. by intros ->. Qed.

Lemma risk_levels_same_total (data data' : DataFrame) :
  column data' "total_internal_marks" = column data "total_internal_marks" ->
  risk_levels data' = risk_levels data.
Proof. unfold risk_levels. by intros ->. Qed.

(** What [update_risk_levels] has done when it returns. *)
Lemma update_risk_levels_ok (data data' : DataFrame) (shown : list notice) :
  well_formed data ->
  has_column data "total_internal_marks" = true ->
  update_risk_levels save_data data = Ok (data', shown) ->
  exists levels scores,
    risk_levels data = Ok levels
    /\ risk_scores data = Ok scores
    /\ data' = set_column (set_column data "risk_level" levels)
                 "risk_score" scores.
Proof.
  intros Hwf Hc. unfold update_risk_levels. rewrite Hc.
  unfold mbind, result_bind.
  destruct (risk_levels data) as [levels|] eqn:El; [|done].
  pose proof (risk_levels_length _ _ El) as Hl.
  rewrite (risk_scores_same_total data).
  2:{ rewrite column_set_column by done. by rewrite decide_False. }
  destruct (risk_scores data) as [scores|] eqn:Es; [|done].
  intros H. exists levels, scores. split; [done|]. split; [done|].
  by destruct (save_data _); injection H as <- _.
Qed.



End FilesFacts.

(** * Properties of duplicates *)

Section DuplicateFacts.
Import Utils Model Frames Notions.

Lemma same_value_refl (a : cell) : same_value a a = true.
Proof.
  destruct a as [|q|s]; simpl; [done| |apply String.eqb_refl].
  apply Qeq_bool_iff. reflexivity.
Qed.

Lemma same_value_sym (a b : cell) : same_value a b = same_value b a.
Proof.
  destruct a as [|p|s], b as [|q|t]; simpl; try done.
  - apply eq_true_iff_eq. rewrite !Qeq_bool_iff. split; by intros ->.
  - apply String.eqb_sym.
Qed.

Lemma same_value_trans (a b c : cell) :
  same_value a b = true -> same_value b c = true -> same_value a c = true.
Proof.
  destruct a as [|p|s], b as [|q|t], c as [|r|u]; simpl; try done.
  - rewrite !Qeq_bool_iff. by intros -> ->.
  - rewrite !String.eqb_eq. by intros -> ->.
Qed.

Lemma same_value_congr (a b c : cell) :
  same_value a b = true -> same_value c a = same_value c b.
Proof.
  intros H. apply eq_true_iff_eq. split; intros Hc.
  - by apply (same_value_trans c a b).
  - apply (same_value_trans c b a); [done|]. by rewrite same_value_sym.
Qed.

(** Whether a value occurs among those seen. *)
Lemma existsb_same_congr (v w : cell) (seen : list cell) :
  same_value v w = true ->
  existsb (same_value v) seen = existsb (same_value w) seen.
Proof.
  intros H. induction seen as [|x seen IH]; simpl; [done|].
  rewrite IH. f_equal. rewrite (same_value_sym v x), (same_value_sym w x).
  by apply same_value_congr.
Qed.

Lemma duplicated_from_equiv (seen seen' s : list cell) :
  (forall x, existsb (same_value x) seen = existsb (same_value x) seen') ->
  duplicated_from seen s = duplicated_from seen' s.
Proof.
  revert seen seen'. induction s as [|v s IH]; intros seen seen' H; simpl;
    [done|].
  rewrite H. f_equal. apply IH. intros x. simpl. by rewrite H.
Qed.

Lemma duplicated_from_length (seen s : list cell) :
  length (duplicated_from seen s) = length s.
Proof.
  revert seen. induction s as [|v s IH]; intros seen; simpl; [done|].
  by rewrite IH.
Qed.

Lemma first_occurrences_fresh (seen s : list cell) :
  Forall (fun b => b = false)
         (duplicated_from seen (first_occurrences seen s)).
Proof.
  unfold first_occurrences. revert seen.
  induction s as [|v s IH]; intros seen; simpl; [constructor|].
  destruct (existsb (same_value v) seen) eqn:E; simpl.
  - rewrite (duplicated_from_equiv seen (v :: seen)); [apply IH|].
    intros x. simpl. destruct (same_value x v) eqn:Ex; [|done].
    simpl. rewrite (existsb_same_congr x v) by done. done.
  - rewrite E. constructor; [done | apply IH].
Qed.

Lemma duplicated_from_fresh_lookup (seen s : list cell) :
  Forall (fun b => b = false) (duplicated_from seen s) ->
  (forall w, w ∈ s -> existsb (same_value w) seen = false)
  /\ distinct_values s.
Proof.
  revert seen. induction s as [|v s IH]; intros seen; simpl.
  - intros _. split; [by intros w Hw%elem_of_nil|].
    intros i j a b _ Hi. done.
  - intros [Hv Hs]%Forall_cons. destruct (IH _ Hs) as [Hin Hd].
    assert (Hlater : forall w, w ∈ s -> same_value w v = false).
    { intros w Hw. specialize (Hin w Hw). simpl in Hin.
      by apply orb_false_iff in Hin as [? _]. }
    split.
    + intros w [->|Hw]%elem_of_cons; [done|].
      specialize (Hin w Hw). simpl in Hin.
      by apply orb_false_iff in Hin as [_ ?].
    + intros [|i] [|j] a b Hij; simpl; try lia.
      * intros [= <-] Hb. rewrite same_value_sym.
        apply Hlater. by eapply list_elem_of_lookup_2.
      * apply Hd. lia.
Qed.

Lemma distinct_values_fresh (seen s : list cell) :
  distinct_values s ->
  (forall w, w ∈ s -> existsb (same_value w) seen = false) ->
  Forall (fun b => b = false) (duplicated_from seen s).
Proof.
  revert seen. induction s as [|v s IH]; intros seen Hd Hin; simpl;
    [constructor|].
  constructor; [apply Hin; by left|].
  apply IH.
  - intros i j a b Hij Hi Hj. apply (Hd (S i) (S j)); [lia | done..].
  - intros w Hw. simpl. rewrite (Hin w) by (by right).
    rewrite orb_false_r.
    apply list_elem_of_lookup in Hw as [j Hj].
    rewrite same_value_sym. apply (Hd 0 (S j)); [lia | done..].
Qed.

(** No value is duplicated exactly when the values are distinct. *)
Lemma duplicated_none (s : list cell) :
  existsb (fun b => b) (duplicated s) = false <-> distinct_values s.
Proof.
  unfold duplicated. split.
  - intros H. apply (duplicated_from_fresh_lookup []).
    apply Forall_forall. intros b Hb. destruct b; [|done].
    apply list_elem_of_In in Hb.
    assert (existsb (fun b => b) (duplicated_from [] s) = true)
      by (apply existsb_exists; eauto).
    congruence.
  - intros Hd. apply not_true_iff_false. intros [b [Hb ->]]%existsb_exists.
    apply list_elem_of_In in Hb.
    pose proof (distinct_values_fresh [] s Hd (fun _ _ => eq_refl)) as Hf.
    rewrite Forall_forall in Hf. by apply Hf in Hb.
Qed.

Lemma boolean_index_column (data : DataFrame) (mask : list bool) (c : string) :
  column {| columns := columns data;
            rows := boolean_index (rows data) mask |} c
    = boolean_index (column data c) mask.
Proof.
  unfold column, cell_at. simpl. revert mask.
  induction (rows data) as [|row rws IH]; intros [|b mask]; simpl; try done.
  destruct b; simpl; by rewrite IH.
Qed.

Lemma boolean_index_length {A} (l : list A) (mask : list bool) :
  length (boolean_index l mask) <= length l.
Proof.
  revert mask. induction l as [|x l IH]; intros [|b mask]; simpl; try lia.
  destruct b; simpl; specialize (IH mask); lia.
Qed.

Lemma boolean_index_sublist {A} (l : list A) (mask : list bool) (x : A) :
  x ∈ boolean_index l mask -> x ∈ l.
Proof.
  revert mask. induction l as [|y l IH]; intros [|b mask]; simpl;
    try (by intros ?%elem_of_nil).
  destruct b.
  - intros [->|H]%elem_of_cons; [by left | right; by eapply IH].
  - intros H. right. by eapply IH.
Qed.

Lemma drop_duplicates_column (data : DataFrame) (col : string) :
  column (drop_duplicates data col) col
    = first_occurrences [] (column data col).
Proof. unfold drop_duplicates. by rewrite boolean_index_column. Qed.

Lemma drop_duplicates_distinct (data : DataFrame) (col : string) :
  distinct_values (column (drop_duplicates data col) col).
Proof.
  rewrite drop_duplicates_column.
  apply (duplicated_from_fresh_lookup []), first_occurrences_fresh.
Qed.


Lemma first_occurrences_complete (seen s : list cell) (v : cell) :
  v ∈ s ->
  existsb (same_value v) seen = true
  \/ exists w, w ∈ first_occurrences seen s /\ same_value v w = true.
Proof.
  unfold first_occurrences. revert seen.
  induction s as [|x s IH]; intros seen; [by intros ?%elem_of_nil|].
  intros Hv. simpl.
  destruct (existsb (same_value x) seen) eqn:E; simpl.
  - apply elem_of_cons in Hv as [->|Hv]; [by left|].
    destruct (IH (x :: seen) Hv) as [Hs|Hw]; [|by right].
    simpl in Hs. apply orb_true_iff in Hs as [Hs|Hs]; [|by left].
    left. by rewrite (existsb_same_congr v x).
  - apply elem_of_cons in Hv as [->|Hv].
    { right. exists x. split; [by left | apply same_value_refl]. }
    destruct (IH (x :: seen) Hv) as [Hs|(w & Hw & Hvw)].
    + simpl in Hs. apply orb_true_iff in Hs as [Hs|Hs]; [|by left].
      right. exists x. split; [by left | done].
    + right. exists w. split; [by right | done].
Qed.

Lemma kept_all_iff {A} (l : list A) (mask : list bool) :
  length mask = length l ->
  (length l - length (boolean_index l (map negb mask)) = 0
   <-> Forall (fun b => b = false) mask).
Proof.
  revert mask. induction l as [|x l IH]; intros [|b mask] Hlen;
    simpl in *; try done.
  pose proof (boolean_index_length l (map negb mask)) as Hle.
  destruct b; simpl.
  - split; [lia | by intros [? _]%Forall_cons].
  - rewrite Forall_cons, <- (IH mask) by lia. split; [|intros [_ ?]]; lia.
Qed.

Lemma none_selected_iff {A} (l : list A) (mask : list bool) :
  length mask = length l ->
  ((0 <? length (boolean_index l mask))%nat = false
   <-> Forall (fun b => b = false) mask).
Proof.
  rewrite Nat.ltb_ge. revert mask.
  induction l as [|x l IH]; intros [|b mask] Hlen; simpl in *; try done.
  destruct b; simpl.
  - split; [lia | by intros [? _]%Forall_cons].
  - rewrite Forall_cons, <- (IH mask) by lia. tauto.
Qed.

Lemma duplicated_all_from_length (before s : list cell) :
  length (duplicated_all_from before s) = length s.
Proof.
  revert before. induction s as [|v s IH]; intros before; simpl; [done|].
  by rewrite IH.
Qed.

Lemma duplicated_all_from_none (before s : list cell) :
  Forall (fun b => b = false) (duplicated_all_from before s)
  <-> Forall (fun b => b = false) (duplicated_from before s).
Proof.
  revert before. induction s as [|v s IH]; intros before; simpl; [done|].
  rewrite !Forall_cons, IH, orb_false_iff. split; [tauto|].
  intros [Hv Hs]. split; [|done]. split; [done|].
  destruct (duplicated_from_fresh_lookup _ _ Hs) as [Hin _].
  apply not_true_iff_false. intros [w [Hw Hvw]]%existsb_exists.
  apply list_elem_of_In in Hw. specialize (Hin w Hw). simpl in Hin.
  apply orb_false_iff in Hin as [Hwv _].
  rewrite same_value_sym in Hwv. congruence.
Qed.

End DuplicateFacts.

Section DuplicateButtons.
Import Utils Model Frames Notions Files.
Variable save_data : DataFrame -> bool.

(** X17. The two duplicate buttons agree, and "Remove Duplicates" keeps
    the first row of every student id: "Find Duplicates" reports none
    exactly when "Remove Duplicates" finds nothing to remove, which is when
    the ids are distinct; the frame that "Remove Duplicates" saves is
    shorter, has distinct ids, and every id of the frame still occurs in
    it. *)
Theorem duplicate_buttons_agree (data : DataFrame) :
  has_column data "student_id" = true ->
  (find_duplicates data = [no_duplicates_found]
   <-> distinct_values (column data "student_id"))
  /\ (remove_duplicates save_data data = (None, [nothing_to_remove])
      <-> distinct_values (column data "student_id"))
  /\ (forall clean shown,
        remove_duplicates save_data data = (Some clean, shown) ->
        len clean < len data
        /\ distinct_values (column clean "student_id")
        /\ (forall row, row ∈ rows clean -> row ∈ rows data)
        /\ (forall v, v ∈ column data "student_id" ->
             exists w, w ∈ column clean "student_id"
                       /\ same_value v w = true)).
Proof.
  intros Hc.
  assert (Hfresh : distinct_values (column data "student_id")
                   <-> Forall (fun b => b = false)
                              (duplicated (column data "student_id"))).
  { split.
    - intros Hd. by apply (distinct_values_fresh []).
    - intros Hf. by apply (duplicated_from_fresh_lookup []). }
  assert (Hlen : len data - len (drop_duplicates data "student_id") = 0
                 <-> distinct_values (column data "student_id")).
  { rewrite Hfresh. unfold len, drop_duplicates. simpl.
    apply kept_all_iff. unfold duplicated.
    by rewrite duplicated_from_length, column_length. }
  split; [|split].
  - unfold find_duplicates. rewrite Hc. rewrite Hfresh.
    unfold duplicated, duplicated_all.
    rewrite <- duplicated_all_from_none.
    rewrite <- (none_selected_iff (rows data))
      by (by rewrite duplicated_all_from_length, column_length).
    unfold duplicated_all.
    destruct (0 <? _)%nat; split; intros; done.
  - unfold remove_duplicates. rewrite Hc. rewrite <- Hlen.
    destruct (0 <? _)%nat eqn:E.
    + apply Nat.ltb_lt in E. split; [by destruct (save_data _) | lia].
    + apply Nat.ltb_ge in E. split; [lia | done].
  - intros clean shown. unfold remove_duplicates. rewrite Hc.
    destruct (0 <? _)%nat eqn:E; [|done]. apply Nat.ltb_lt in E.
    intros H.
    assert (clean = drop_duplicates data "student_id") as ->
      by (by destruct (save_data _); injection H as <- _).
    split; [lia|]. split; [apply drop_duplicates_distinct|]. split.
    + intros row Hrow. unfold drop_duplicates in Hrow. simpl in Hrow.
      exact (boolean_index_sublist _ _ _ Hrow).
    + intros v Hv. rewrite drop_duplicates_column.
      destruct (first_occurrences_complete [] _ v Hv) as [?|?]; done.
Qed.

End DuplicateButtons.

(** * Properties of the upload and of the cleaning *)

Section ImportFacts.
Import Utils Model Frames Notions Import_CSV.






(** ** Cleaning *)











End ImportFacts.

(** * Properties of the validation and of the sample *)

Section ValidationFacts.
Import Utils Model Frames Checks Notions.

Lemma fullmatch_seq (r1 r2 : regex) (s : list ascii) :
  fullmatch (Seq r1 r2) s = true
  <-> exists s1 s2, s = (s1 ++ s2)%list
        /\ fullmatch r1 s1 = true /\ fullmatch r2 s2 = true.
Proof.
  cbn [fullmatch]. rewrite existsb_exists. split.
  - intros (i & _ & H). apply andb_true_iff in H as [H1 H2].
    exists (take i s), (drop i s). by rewrite take_drop.
  - intros (s1 & s2 & -> & H1 & H2). exists (length s1). split.
    + apply in_seq. rewrite length_app. lia.
    + by rewrite take_app_length, drop_app_length, H1, H2.
Qed.

Lemma fullmatch_lit (c : ascii) (s : list ascii) :
  fullmatch (Lit c) s = true <-> s = [c].
Proof.
  simpl. destruct s as [|c' [|c'' s]]; try (split; [done | congruence]).
  rewrite Ascii.eqb_eq. split; congruence.
Qed.

Lemma fullmatch_run (class : ascii -> bool) (min : nat) (s : list ascii) :
  fullmatch (Run class min) s = true
  <-> (min <= length s)%nat /\ forallb class s = true.
Proof.
  simpl. rewrite andb_true_iff, Nat.leb_le. done.
Qed.

Lemma email_pattern_shape (s : list ascii) :
  fullmatch email_pattern s = true <-> email_shape s.
Proof.
  unfold email_pattern, email_shape. split.
  - intros H.
    apply fullmatch_seq in H as (loc & s1 & -> & Hloc & H).
    apply fullmatch_seq in H as (a & s2 & -> & Ha & H).
    apply fullmatch_seq in H as (dom & s3 & -> & Hdom & H).
    apply fullmatch_seq in H as (d & tld & -> & Hd & Htld).
    apply fullmatch_lit in Ha as ->. apply fullmatch_lit in Hd as ->.
    apply fullmatch_run in Hloc as [? ?]. apply fullmatch_run in Hdom as [? ?].
    apply fullmatch_run in Htld as [? ?].
    exists loc, dom, tld. done.
  - intros (loc & dom & tld & -> & L1 & L2 & D1 & D2 & T1 & T2).
    apply fullmatch_seq. exists loc, (at_sign :: dom ++ full_stop :: tld)%list.
    split; [done|]. split; [by apply fullmatch_run|].
    apply fullmatch_seq. exists [at_sign], (dom ++ full_stop :: tld)%list.
    split; [done|]. split; [by apply fullmatch_lit|].
    apply fullmatch_seq. exists dom, (full_stop :: tld)%list.
    split; [done|]. split; [by apply fullmatch_run|].
    apply fullmatch_seq. exists [full_stop], tld.
    split; [done|]. split; [by apply fullmatch_lit | by apply fullmatch_run].
Qed.

Lemma email_matches_accepted (c : cell) :
  email_matches c = true <-> accepted_email c.
Proof.
  unfold accepted_email. destruct c as [|q|s]; simpl.
  - split; [done | by intros (? & ? & _)].
  - split; [done | by intros (? & ? & _)].
  - unfold re_match.
    set (chars := String.list_ascii_of_string s).
    rewrite orb_true_iff, email_pattern_shape. split.
    + intros [H | H]; [exists s; split; [done | by left]|].
      exists s. split; [done|]. right. fold chars.
      destruct chars as [|c l _] using rev_ind; [done|].
      rewrite last_snoc, removelast_last in H.
      apply andb_true_iff in H as [E H]. apply Ascii.eqb_eq in E as ->.
      apply email_pattern_shape in H. by exists l.
    + intros (s' & [= <-] & [H | (body & E & H)]); [by left|]. right.
      fold chars in E. rewrite E, last_snoc, removelast_last.
      apply andb_true_iff. split; [by apply Ascii.eqb_eq|].
      by apply email_pattern_shape.
Qed.

Lemma column_length_rows (data : DataFrame) (col : string) :
  length (column data col) = length (rows data).
Proof. unfold column. by rewrite length_map. Qed.

Lemma no_invalid_emails (df : DataFrame) :
  columns df <> [] ->
  (empty {| columns := columns df;
            rows := boolean_index (rows df)
                      (map (fun c => negb (email_matches c))
                           (column df "email")) |} = true
   <-> Forall accepted_email (column df "email")).
Proof.
  intros Hcols.
  pose proof (none_selected_iff (rows df)
                (map (fun c => negb (email_matches c)) (column df "email"))) as H.
  rewrite length_map, column_length_rows in H. specialize (H eq_refl).
  rewrite Forall_map in H.
  assert (Forall accepted_email (column df "email")
          <-> Forall (fun c => negb (email_matches c) = false)
                     (column df "email")) as ->.
  { apply Forall_iff. intros c. rewrite <- email_matches_accepted.
    destruct (email_matches c); simpl; split; congruence. }
  rewrite <- H. unfold empty. simpl.
  destruct (columns df); [done|].
  destruct (boolean_index _ _); unfold Nat.ltb; simpl; split; congruence.
Qed.

Lemma missing_columns_none (df : DataFrame) :
  (0 <? length (List.filter (fun col => negb (has_column df col))
                  required_columns))%nat = false
  <-> Forall (fun col => has_column df col = true) required_columns.
Proof.
  unfold required_columns. simpl. rewrite !Forall_cons, Forall_nil.
  destruct (has_column df "student_id"), (has_column df "name"),
    (has_column df "email"); unfold Nat.ltb; simpl; intuition congruence.
Qed.

Lemma validate_student_data_ok (df : DataFrame) :
  Forall (fun col => has_column df col = true) required_columns ->
  distinct_values (column df "student_id") ->
  Forall accepted_email (column df "email") ->
  validate_student_data df = (true, "Data validation successful").
Proof.
  intros Hcols Hids Hmails. unfold validate_student_data.
  apply missing_columns_none in Hcols as E1. rewrite E1.
  apply duplicated_none in Hids. rewrite Hids.
  assert (Hne : columns df <> []).
  { assert (H : has_column df "email" = true).
    { rewrite Forall_forall in Hcols. apply Hcols.
      unfold required_columns. apply list_elem_of_In. simpl. tauto. }
    unfold has_column in H. apply bool_decide_eq_true in H.
    intros E. rewrite E in H. by apply elem_of_nil in H. }
  apply (no_invalid_emails df Hne) in Hmails. by rewrite Hmails.
Qed.

(** X20.  [validate_student_data] accepts a frame exactly when the three
    required columns are present, no two rows hold the same student id and
    every e-mail cell is a text of the form local@domain.tld, possibly
    followed by one newline; it then answers "Data validation successful". *)
Theorem validate_student_data_accepts (df : DataFrame) :
  (fst (validate_student_data df) = true
   <-> Forall (fun col => has_column df col = true) required_columns
       /\ distinct_values (column df "student_id")
       /\ Forall accepted_email (column df "email"))
  /\ (fst (validate_student_data df) = true
      <-> validate_student_data df = (true, "Data validation successful")).
Proof.
  pose proof (missing_columns_none df) as Hmissing.
  pose proof (duplicated_none (column df "student_id")) as Hdup.
  pose proof (no_invalid_emails df) as Hmail.
  unfold validate_student_data.
  destruct (0 <? _)%nat eqn:E1.
  { simpl. split; [|split; [done | congruence]].
    split; [done|]. intros (H & _). apply Hmissing in H. congruence. }
  assert (Hcols : columns df <> []).
  { assert (H : has_column df "email" = true).
    { destruct Hmissing as [H _]. specialize (H eq_refl).
      rewrite Forall_forall in H. apply H.
      unfold required_columns. apply list_elem_of_In. simpl. tauto. }
    unfold has_column in H. apply bool_decide_eq_true in H.
    intros E. rewrite E in H. by apply elem_of_nil in H. }
  specialize (Hmail Hcols).
  destruct (existsb _ (duplicated _)) eqn:E2.
  { simpl. split; [|split; [done | congruence]].
    split; [done|]. intros (_ & H & _). apply Hdup in H. congruence. }
  destruct (empty _) eqn:E3; simpl.
  - split; [|done]. split; [|done]. intros _.
    split; [by apply Hmissing|]. split; [by apply Hdup | by apply Hmail].
  - split; [|split; [done | congruence]].
    split; [done|]. intros (_ & _ & H). apply Hmail in H. congruence.
Qed.

Lemma list_ascii_of_string_app (a b : string) :
  String.list_ascii_of_string (a ++ b)
  = (String.list_ascii_of_string a ++ String.list_ascii_of_string b)%list.
Proof. induction a as [|c a IH]; simpl; [done | by rewrite IH]. Qed.

Lemma decimal_inj (a b : nat) : decimal a = decimal b -> a = b.
Proof.
  unfold decimal. intros E.
  apply (f_equal NilEmpty.uint_of_string) in E.
  rewrite !NilEmpty.usu in E. injection E as E.
  apply (f_equal Nat.of_uint) in E. by rewrite !Unsigned.of_to in E.
Qed.

Lemma decimal_digits (n : nat) :
  forallb (between "0" "9") (String.list_ascii_of_string (decimal n)) = true.
Proof.
  unfold decimal. induction (Nat.to_uint n) as [|d IH|d IH|d IH|d IH|d IH|d IH
                                               |d IH|d IH|d IH|d IH];
    [done|..]; cbn [NilEmpty.string_of_uint String.list_ascii_of_string forallb];
    by rewrite IH.
Qed.

Lemma digit_local_char (c : ascii) :
  between "0" "9" c = true -> local_char c = true.
Proof.
  unfold local_char, alphanumeric. intros ->.
  by rewrite orb_true_r.
Qed.

Lemma student_ids_distinct (num_students : nat) :
  distinct_values (map Str (student_ids num_students)).
Proof.
  intros i j a b Hij Ha Hb. unfold student_ids in *.
  rewrite !list_lookup_fmap in Ha, Hb.
  destruct (seq 0 num_students !! i) as [i'|] eqn:Ei; [|done].
  destruct (seq 0 num_students !! j) as [j'|] eqn:Ej; [|done].
  apply lookup_seq in Ei as [-> _]. apply lookup_seq in Ej as [-> _].
  simpl in Ha, Hb. injection Ha as <-. injection Hb as <-.
  cbn [same_value]. apply String.eqb_neq. intros E.
  simpl in E. injection E as E. apply decimal_inj in E. lia.
Qed.

Lemma emails_accepted (num_students : nat) :
  Forall accepted_email (map Str (emails num_students)).
Proof.
  unfold emails. rewrite !Forall_map. apply Forall_forall. intros i _.
  exists ("student" ++ decimal i ++ "@university.edu"). split; [done|]. left.
  exists (String.list_ascii_of_string "student"
          ++ String.list_ascii_of_string (decimal i))%list,
         (String.list_ascii_of_string "university"),
         (String.list_ascii_of_string "edu").
  split.
  { rewrite !list_ascii_of_string_app, <- app_assoc. reflexivity. }
  split; [rewrite length_app; simpl; lia|].
  split.
  { rewrite forallb_app. apply andb_true_iff. split; [reflexivity|].
    apply forallb_forall. intros c Hc.
    apply digit_local_char.
    pose proof (decimal_digits i) as H. rewrite forallb_forall in H.
    by apply H. }
  split; [simpl; lia|]. split; [reflexivity|].
  split; [simpl; lia | reflexivity].
Qed.

(** X21.  The identity columns that [generate_sample_data] writes pass the
    validation for every number of students: the ids STU1000, STU1001, ...
    are distinct and every address student<i>@university.edu matches the
    e-mail pattern. *)
Theorem sample_identity_columns_valid (num_students : nat) (df : DataFrame) :
  Forall (fun col => has_column df col = true) required_columns ->
  column df "student_id" = map Str (student_ids num_students) ->
  column df "email" = map Str (emails num_students) ->
  validate_student_data df = (true, "Data validation successful").
Proof.
  intros Hcols Hids Hmails. apply validate_student_data_ok; [done| |].
  - rewrite Hids. apply student_ids_distinct.
  - rewrite Hmails. apply emails_accepted.
Qed.

Lemma sample_identity_columns_valid_witness :
  validate_student_data three_students = (true, "Data validation successful").
Proof.
  apply (sample_identity_columns_valid 3 three_students).
  - unfold required_columns. repeat constructor.
  - vm_compute. reflexivity.
  - vm_compute. reflexivity.
Defined.

End ValidationFacts.

Section SampleFacts.
Import Utils Model Frames Checks Notions.

Lemma adjust_appends (fuel num_students : nat) (choice : nat -> string)
    (k : nat) (l : list string) :
  (length l <= num_students)%nat ->
  (num_students - length l <= fuel)%nat ->
  adjust fuel num_students choice k l
  = (l ++ map choice (seq k (num_students - length l)))%list.
Proof.
  revert k l. induction fuel as [|fuel IH]; intros k l Hle Hfuel.
  - simpl. replace (num_students - length l)%nat with 0%nat by lia.
    simpl. by rewrite app_nil_r.
  - cbn [adjust]. destruct (length l <? num_students)%nat eqn:E.
    + apply Nat.ltb_lt in E.
      rewrite IH by (rewrite length_app; simpl; lia).
      rewrite length_app. simpl length.
      replace (num_students - length l)%nat
        with (S (num_students - (length l + 1)))%nat by lia.
      cbn [seq map]. by rewrite <- app_assoc.
    + apply Nat.ltb_ge in E.
      replace (num_students - length l)%nat with 0%nat by lia.
      simpl. by rewrite app_nil_r.
Qed.

Lemma course_distribution_length (num_students : nat) :
  length (course_distribution num_students)
  = (num_students * 30 / 100 + num_students * 25 / 100
     + num_students * 20 / 100 + num_students * 15 / 100
     + num_students * 10 / 100)%nat.
Proof.
  unfold course_distribution, courses. cbn [flat_map].
  rewrite !length_app, !length_replicate. simpl. lia.
Qed.

Lemma course_distribution_short (num_students : nat) :
  (length (course_distribution num_students) <= num_students
   /\ num_students - length (course_distribution num_students) <= 4)%nat.
Proof.
  rewrite course_distribution_length.
  pose proof (Nat.div_mod_eq (num_students * 30) 100).
  pose proof (Nat.div_mod_eq (num_students * 25) 100).
  pose proof (Nat.div_mod_eq (num_students * 20) 100).
  pose proof (Nat.div_mod_eq (num_students * 15) 100).
  pose proof (Nat.div_mod_eq (num_students * 10) 100).
  pose proof (Nat.mod_upper_bound (num_students * 30) 100).
  pose proof (Nat.mod_upper_bound (num_students * 25) 100).
  pose proof (Nat.mod_upper_bound (num_students * 20) 100).
  pose proof (Nat.mod_upper_bound (num_students * 15) 100).
  pose proof (Nat.mod_upper_bound (num_students * 10) 100).
  lia.
Qed.

(** X22.  The course list of [generate_sample_data], before it is shuffled,
    has one entry for every student: the shares of the five courses in the
    order of the dict, followed by at most four random choices that make up
    for the rounding; the loop never overshoots, so the slice cuts nothing. *)
Theorem course_list_fills (num_students : nat) (choice : nat -> string) :
  length (course_list num_students choice) = num_students
  /\ exists drawn : nat,
       (drawn <= 4)%nat
       /\ course_list num_students choice
          = (course_distribution num_students ++ map choice (seq 0 drawn))%list
       /\ adjust num_students num_students choice 0
            (course_distribution num_students)
          = course_list num_students choice.
Proof.
  destruct (course_distribution_short num_students) as [Hle Hshort].
  assert (E : adjust num_students num_students choice 0
                (course_distribution num_students)
              = (course_distribution num_students
                 ++ map choice
                      (seq 0 (num_students
                              - length (course_distribution num_students))))%list).
  { apply adjust_appends; lia. }
  assert (L : length (adjust num_students num_students choice 0
                        (course_distribution num_students)) = num_students).
  { rewrite E, length_app, length_map, length_seq. lia. }
  assert (T : course_list num_students choice
              = adjust num_students num_students choice 0
                  (course_distribution num_students)).
  { unfold course_list. apply take_ge. lia. }
  split; [by rewrite T|].
  exists (num_students - length (course_distribution num_students))%nat.
  split; [done|]. split; [by rewrite T | done].
Qed.

End SampleFacts.

(** * Properties of the metrics *)

Section MetricsFacts.
Import Utils Model Frames Files Checks Notions.
Variable mean : list cell -> result cell.
Variable save_data : DataFrame -> bool.

Lemma result_eta {A} (r : result A) (d : A) :
  returns r = true -> r = Ok (value_or r d).
Proof. destruct r; simpl; [done | discriminate]. Defined.

Lemma same_value_str (v : cell) (l : string) :
  same_value v (Str l) = true -> v = Str l.
Proof.
  destruct v as [|q|s]; simpl; try done.
  intros E. apply String.eqb_eq in E. by subst.
Qed.

Lemma find_value_counts (f : cell -> nat) (uniques : list cell) (l : string) :
  List.find (fun entry => same_value (fst entry) (Str l))
            (map (fun v => (v, f v)) uniques)
  = if existsb (same_value (Str l)) uniques
    then Some (Str l, f (Str l)) else None.
Proof.
  induction uniques as [|u uniques IH]; [done|].
  cbn [map List.find existsb fst].
  rewrite (same_value_sym (Str l) u).
  destruct (same_value u (Str l)) eqn:E; cbn [orb]; [|done].
  apply same_value_str in E. by subst.
Qed.

Lemma occurrences_unseen (s : list cell) (l : string) :
  existsb (same_value (Str l)) (unique_values s) = false ->
  occurrences (Str l) s = 0%nat.
Proof.
  intros Hnone. unfold occurrences.
  destruct (List.filter (same_value (Str l)) s) as [|v rest] eqn:E; [done|].
  exfalso.
  assert (Hv : In v (List.filter (same_value (Str l)) s))
    by (rewrite E; by left).
  apply filter_In in Hv as [Hin Hsame].
  rewrite same_value_sym in Hsame. apply same_value_str in Hsame. subst v.
  apply list_elem_of_In in Hin.
  destruct (first_occurrences_complete [] s (Str l) Hin) as [H | (w & Hw & H)];
    [done|].
  rewrite same_value_sym in H. apply same_value_str in H. subst w.
  assert (Hu : In (Str l) (unique_values s)).
  { unfold unique_values. apply filter_In. split; [|done].
    by apply list_elem_of_In. }
  assert (existsb (same_value (Str l)) (unique_values s) = true).
  { apply existsb_exists. exists (Str l). split; [done|].
    apply same_value_refl. }
  congruence.
Qed.

(** [risk_counts.get(label, 0)] is the number of rows with that label. *)
Lemma counts_get_value_counts (s : list cell) (l : string) :
  counts_get (value_counts s) (Str l) 0 = occurrences (Str l) s.
Proof.
  unfold counts_get, value_counts. rewrite find_value_counts.
  destruct (existsb _ _) eqn:E; [done|].
  symmetry. by apply occurrences_unseen.
Qed.

Lemma occurrences_cons (v c : cell) (s : list cell) :
  occurrences v (c :: s)
  = ((if same_value v c then 1 else 0) + occurrences v s)%nat.
Proof. unfold occurrences. simpl. by destruct (same_value v c). Qed.

Lemma occurrences_labels (s : list cell) :
  (occurrences (Str "Low") s + occurrences (Str "Medium") s
   + occurrences (Str "High") s + occurrences (Str "Failure") s
   <= length s)%nat
  /\ (Forall (fun c => c ∈ vocabulary) s ->
      (occurrences (Str "Low") s + occurrences (Str "Medium") s
       + occurrences (Str "High") s + occurrences (Str "Failure") s
       = length s)%nat).
Proof.
  induction s as [|c s [IH1 IH2]]; [done|].
  rewrite !occurrences_cons. cbn [length]. split.
  - destruct c as [|q|t]; cbn [same_value]; [lia | lia |].
    destruct (String.eqb "Low" t) eqn:E1;
      [apply String.eqb_eq in E1; subst t; simpl; lia|].
    destruct (String.eqb "Medium" t) eqn:E2;
      [apply String.eqb_eq in E2; subst t; simpl; lia|].
    destruct (String.eqb "High" t) eqn:E3;
      [apply String.eqb_eq in E3; subst t; simpl; lia|].
    destruct (String.eqb "Failure" t); lia.
  - intros H. apply Forall_cons in H as [Hc Hs]. specialize (IH2 Hs).
    unfold vocabulary in Hc. apply list_elem_of_In in Hc. simpl in Hc.
    destruct Hc as [<- | [<- | [<- | [<- | []]]]]; simpl; lia.
Qed.

Lemma calculate_metrics_present (data : DataFrame) (m : gmap string metric) :
  empty data = false ->
  has_column data "risk_level" = true ->
  calculate_metrics mean data = Ok m ->
  let levels := column data "risk_level" in
  count_of m "total_students" = len data
  /\ count_of m "low_risk" = occurrences (Str "Low") levels
  /\ count_of m "medium_risk" = occurrences (Str "Medium") levels
  /\ count_of m "high_risk" = occurrences (Str "High") levels
  /\ count_of m "failure_risk" = occurrences (Str "Failure") levels.
Proof.
  intros Hempty Hrisk H. unfold calculate_metrics in H.
  rewrite Hempty, Hrisk in H.
  destruct (if has_column data "total_internal_marks" then _ else _)
    as [average|e]; [|done].
  simpl in H. injection H as <-.
  unfold count_of. simplify_map_eq.
  by rewrite !counts_get_value_counts.
Qed.

(** X23.  The metrics of an empty frame are the empty dict.  Otherwise
    [total_students] is the number of rows; with a risk-level column, the
    four risk counts are the numbers of rows labelled Low, Medium, High and
    Failure, so they never add up to more than [total_students] and add up
    to exactly that when every label is one of the four; without that
    column the four keys are absent. *)
Theorem calculate_metrics_counts (data : DataFrame) (m : gmap string metric) :
  calculate_metrics mean data = Ok m ->
  (empty data = true -> m = ∅)
  /\ (empty data = false ->
      count_of m "total_students" = len data
      /\ (has_column data "risk_level" = false ->
          m !! "low_risk" = None /\ m !! "medium_risk" = None
          /\ m !! "high_risk" = None /\ m !! "failure_risk" = None)
      /\ (has_column data "risk_level" = true ->
          let levels := column data "risk_level" in
          count_of m "low_risk" = occurrences (Str "Low") levels
          /\ count_of m "medium_risk" = occurrences (Str "Medium") levels
          /\ count_of m "high_risk" = occurrences (Str "High") levels
          /\ count_of m "failure_risk" = occurrences (Str "Failure") levels
          /\ (risk_counts_total m <= len data)%nat
          /\ (Forall (fun c => c ∈ vocabulary) levels ->
              risk_counts_total m = len data))).
Proof.
  intros H. split.
  { intros E. unfold calculate_metrics in H. rewrite E in H. congruence. }
  intros Hempty. split; [|split].
  - unfold calculate_metrics in H. rewrite Hempty in H.
    destruct (if has_column data "total_internal_marks" then _ else _)
      as [average|e]; [|done].
    simpl in H. unfold count_of.
    destruct (has_column data "risk_level"); injection H as <-;
      by simplify_map_eq.
  - intros Hrisk. unfold calculate_metrics in H. rewrite Hempty, Hrisk in H.
    destruct (if has_column data "total_internal_marks" then _ else _)
      as [average|e]; [|done].
    simpl in H. injection H as <-. by simplify_map_eq.
  - intros Hrisk levels.
    destruct (calculate_metrics_present data m Hempty Hrisk H)
      as (_ & L & M & Hi & F).
    fold levels in L, M, Hi, F.
    destruct (occurrences_labels levels) as [Hle Heq].
    assert (Hlen : length levels = len data)
      by (unfold levels, column, len; by rewrite length_map).
    unfold risk_counts_total. rewrite L, M, Hi, F.
    repeat split; try done; [lia|]. intros Hall. specialize (Heq Hall). lia.
Qed.

Lemma risk_levels_vocabulary (data : DataFrame) (levels : list cell) :
  risk_levels data = Ok levels -> Forall (fun c => c ∈ vocabulary) levels.
Proof.
  unfold risk_levels. rewrite series_map_ok.
  induction 1 as [|t x s xs Ht _ IH]; constructor; [|done].
  unfold vocabulary.
  destruct t as [|q|str]; simpl in Ht; [| |done]; injection Ht as <-.
  - apply list_elem_of_In. simpl. tauto.
  - unfold get_risk_level.
    destruct (ge q 45); [apply list_elem_of_In; simpl; tauto|].
    destruct (ge q 35); [apply list_elem_of_In; simpl; tauto|].
    destruct (ge q 25); apply list_elem_of_In; simpl; tauto.
Qed.

(** X24.  After "Update Risk Levels" the dashboard adds up: the four risk
    counts that [calculate_metrics] reads off the updated frame sum to its
    [total_students], because every label the button writes is one of Low,
    Medium, High and Failure. *)
Theorem update_risk_levels_then_metrics (data data' : DataFrame)
    (shown : list notice) (m : gmap string metric) :
  well_formed data ->
  has_column data "total_internal_marks" = true ->
  update_risk_levels save_data data = Ok (data', shown) ->
  calculate_metrics mean data' = Ok m ->
  risk_counts_total m = count_of m "total_students".
Proof.
  intros Hwf Htotal Hupdate Hmetrics.
  destruct (update_risk_levels_ok save_data data data' shown Hwf Htotal Hupdate)
    as (levels & scores & Hlevels & Hscores & ->).
  pose proof (risk_levels_length _ _ Hlevels) as L1.
  pose proof (risk_scores_length _ _ Hscores) as L2.
  destruct (risk_columns_set data levels scores Hwf L1 L2)
    as (Hwf' & Hlen & Hcol & _ & _).
  set (data' := set_column (set_column data "risk_level" levels)
                  "risk_score" scores) in *.
  destruct (empty data') eqn:Hempty.
  { unfold calculate_metrics in Hmetrics. rewrite Hempty in Hmetrics.
    injection Hmetrics as <-. reflexivity. }
  assert (Hrisk : has_column data' "risk_level" = true).
  { unfold data'. rewrite !has_column_set.
    rewrite (bool_decide_eq_true_2 ("risk_level" = "risk_level")) by done.
    by rewrite orb_true_r. }
  destruct (calculate_metrics_present data' m Hempty Hrisk Hmetrics)
    as (T & L & M & Hi & F).
  rewrite Hcol in L, M, Hi, F.
  destruct (occurrences_labels levels) as [_ Heq].
  specialize (Heq (risk_levels_vocabulary _ _ Hlevels)).
  unfold risk_counts_total. rewrite T, L, M, Hi, F, Hlen. lia.
Qed.

End MetricsFacts.

(** * The pages on concrete frames *)

Section MoreRuns.
Import Utils Model Baseline Frames Import_CSV Checks Notions.

Lemma result_pair_eta {A B} (r : result (A * B)) (d : A * B) :
  returns r = true -> r = Ok (fst (value_or r d), snd (value_or r d)).
Proof. destruct r as [[a b]|e]; simpl; [done | discriminate]. Defined.

Lemma tab_eta {P S N A} (run : P * S * list N * result A) (r : result A) :
  snd run = r
  -> run = (fst (fst (fst run)), snd (fst (fst run)), snd (fst run), r).
Proof. destruct run as [[[p s] log] r']. simpl. by intros ->. Defined.

Lemma well_formed_untidy : well_formed untidy.
Proof.
  split; [apply (bool_decide_unpack _); vm_compute; reflexivity|].
  repeat constructor.
Defined.


Lemma saved_storage_run :
  save_model trained default_filename empty_storage
  = (saved_storage, [], Ok true).
Proof. apply run_eta_log; vm_compute; reflexivity. Defined.

Lemma updated_run :
  Files.update_risk_levels always_saved untidy = Ok (fst updated, snd updated).
Proof. apply result_pair_eta. vm_compute. reflexivity. Defined.

Lemma save_model_frame_witness :
  save_model trained default_filename empty_storage
  = (saved_storage, [], Ok true)
  /\ denied saved_storage = denied empty_storage.
Proof.
  split; [exact saved_storage_run|].
  exact (proj1 (save_model_frame trained default_filename empty_storage
                  saved_storage [] (Ok true) saved_storage_run)).
Defined.

Lemma last_save_wins_witness :
  save_model trained default_filename empty_storage
  = (saved_storage, [], Ok true)
  /\ exists fs2,
       save_model new_predictor default_filename saved_storage
       = (fs2, [], Ok true)
       /\ load_model fs2 default_filename trained
          = (new_predictor, [], Ok true).
Proof.
  split; [exact saved_storage_run|].
  exact (last_save_wins trained new_predictor trained default_filename
           empty_storage saved_storage [] saved_storage_run).
Defined.

Lemma load_model_forgets_witness :
  load_model saved_storage default_filename new_predictor
  = (restored, [], Ok true)
  /\ load_model saved_storage default_filename trained
     = (restored, [], Ok true).
Proof.
  assert (H : load_model saved_storage default_filename new_predictor
              = (restored, [], Ok true)).
  { apply run_eta_log; vm_compute; reflexivity. }
  split; [exact H|].
  exact (proj1 (proj2 (load_model_forgets saved_storage default_filename
                         new_predictor restored trained [] H))).
Defined.

Lemma predict_risk_missing_is_zero_witness :
  some_marks !! "cat2_marks" = None
  /\ predict_risk trained (<["cat2_marks" := Num 0]> some_marks)
     = predict_risk trained some_marks.
Proof.
  assert (H : some_marks !! "cat2_marks" = None) by (vm_compute; reflexivity).
  split; [exact H|].
  exact (predict_risk_missing_is_zero trained some_marks "cat2_marks" H).
Defined.

Lemma predict_risk_incomplete_state_witness :
  is_trained flag_only = true
  /\ predict_risk flag_only some_marks
     = Ok (Str "Prediction error: 'NoneType' object is not subscriptable",
           0%Q).
Proof.
  assert (H : is_trained flag_only = true) by reflexivity.
  split; [exact H|].
  exact (proj1 (predict_risk_incomplete_state flag_only some_marks H) eq_refl).
Defined.

Lemma train_model_success_witness :
  @train_model sklearn twelve_rows new_predictor
  = (trained, snd (fst (@train_model sklearn twelve_rows new_predictor)),
     Ok true)
  /\ is_trained trained = true.
Proof.
  assert (H : @train_model sklearn twelve_rows new_predictor
              = (trained,
                 snd (fst (@train_model sklearn twelve_rows new_predictor)),
                 Ok true)).
  { apply run_eta. vm_compute. reflexivity. }
  split; [exact H|].
  exact (proj1 (proj2 (train_model_success twelve_rows new_predictor trained
                         _ H))).
Defined.

Lemma failed_training_report_witness :
  @train_model sklearn nine_rows new_predictor
  = (fst (fst (@train_model sklearn nine_rows new_predictor)),
     snd (fst (@train_model sklearn nine_rows new_predictor)), Ok false)
  /\ exists r, snd (fst (@train_model sklearn nine_rows new_predictor)) = [r].
Proof.
  assert (H : @train_model sklearn nine_rows new_predictor
              = (fst (fst (@train_model sklearn nine_rows new_predictor)),
                 snd (fst (@train_model sklearn nine_rows new_predictor)),
                 Ok false)).
  { apply run_eta. vm_compute. reflexivity. }
  split; [exact H|].
  destruct (failed_training_report nine_rows new_predictor _ _ H)
    as (r & Hr & _).
  exists r. exact Hr.
Defined.

Lemma train_button_then_load_button_witness :
  tab_run = (fst (fst (fst tab_run)), snd (fst (fst tab_run)),
             snd (fst tab_run), Ok tt)
  /\ is_trained (@new_predictor sklearn) = false
  /\ is_trained (fst (fst (fst tab_run))) = true
  /\ can_save empty_storage default_filename
  /\ Analytics.load_button new_predictor (snd (fst (fst tab_run)))
     = (fst (fst (fst tab_run)), [Analytics.model_loaded], Ok tt).
Proof.
  assert (H : tab_run = (fst (fst (fst tab_run)), snd (fst (fst tab_run)),
                         snd (fst tab_run), Ok tt)).
  { apply tab_eta. vm_compute. reflexivity. }
  assert (H1 : is_trained (@new_predictor sklearn) = false) by reflexivity.
  assert (H2 : is_trained (fst (fst (fst tab_run))) = true)
    by (vm_compute; reflexivity).
  split; [exact H|]. split; [exact H1|]. split; [exact H2|].
  split; [exact can_save_empty_storage|].
  exact (proj2 (train_button_then_load_button twelve_rows
                  new_predictor _ new_predictor empty_storage _ _ H H1 H2
                  can_save_empty_storage)).
Defined.



Lemma duplicate_buttons_agree_witness :
  has_column untidy "student_id" = true
  /\ (Files.find_duplicates untidy = [Files.no_duplicates_found]
      <-> distinct_values (column untidy "student_id")).
Proof.
  assert (H : has_column untidy "student_id" = true) by reflexivity.
  split; [exact H|].
  exact (proj1 (duplicate_buttons_agree always_saved untidy H)).
Defined.



Lemma calculate_metrics_counts_witness :
  calculate_metrics mean_of_numbers untidy = Ok untidy_metrics
  /\ count_of untidy_metrics "total_students" = len untidy.
Proof.
  assert (H : calculate_metrics mean_of_numbers untidy = Ok untidy_metrics).
  { apply result_eta. vm_compute. reflexivity. }
  split; [exact H|].
  exact (proj1 (proj2 (calculate_metrics_counts mean_of_numbers untidy
                         untidy_metrics H) eq_refl)).
Defined.

Lemma update_risk_levels_then_metrics_witness :
  well_formed untidy
  /\ has_column untidy "total_internal_marks" = true
  /\ Files.update_risk_levels always_saved untidy
     = Ok (fst updated, snd updated)
  /\ calculate_metrics mean_of_numbers (fst updated) = Ok updated_metrics
  /\ risk_counts_total updated_metrics
     = count_of updated_metrics "total_students".
Proof.
  assert (H : has_column untidy "total_internal_marks" = true) by reflexivity.
  assert (Hm : calculate_metrics mean_of_numbers (fst updated)
               = Ok updated_metrics).
  { apply result_eta. vm_compute. reflexivity. }
  split; [exact well_formed_untidy|]. split; [exact H|].
  split; [exact updated_run|]. split; [exact Hm|].
  exact (update_risk_levels_then_metrics mean_of_numbers always_saved untidy
           (fst updated) (snd updated) updated_metrics well_formed_untidy H
           updated_run Hm).
Defined.

End MoreRuns.
